(** * Agent routing service: a shallow embedding of [agent-routing-service.js]

    The service picks the agent that handles a telephone call.  It reads
    rows of an agent registry through a query client and falls back, step
    by step, to a built-in Default Agent.

    The embedding keeps the shape of the JavaScript source:
    - a property that may be absent or null is a [js A] value
      ([Undefined], [Null] or [Val a]); the operators [!x] and [x || d]
      go through the JavaScript notion of a truthy value;
    - an [async] function is a computation in the monad [Exc], whose
      [Throw] stands for a thrown exception or a rejected promise, and
      [try { ... } catch { ... }] is [try_catch];
    - what the registry answers to each query, and the local clock, are
      the fields of a [World]; the functions are pure in that world.
    Calls to [console.log] and [console.error] write diagnostics only and
    are left out. *)

From Stdlib Require Import ZArith List String Ascii Bool Arith Lia.
Import ListNotations.

Local Open Scope string_scope.
Local Open Scope list_scope.
Local Open Scope Z_scope.

(** ** JavaScript values *)

(** A value of type [A] as a JavaScript program meets it: the property may
    be missing ([Undefined]), hold [null], or hold a value. *)
Inductive js (A : Type) : Type :=
| Undefined
| Null
| Val (a : A).

Arguments Undefined {A}.
Arguments Null {A}.
Arguments Val {A} a.

(** Truthiness: [undefined], [null], [false], [0] and the empty string are
    falsy; every array and every object is truthy. *)
Class Truthy (A : Type) := truthy : A -> bool.

#[global] Instance truthy_string : Truthy string :=
  fun s => negb (String.eqb s "").
#[global] Instance truthy_Z : Truthy Z :=
  fun n => negb (n =? 0).
#[global] Instance truthy_bool : Truthy bool :=
  fun b => b.
#[global] Instance truthy_array (A : Type) : Truthy (list A) :=
  fun _ => true.
#[global] Instance truthy_js (A : Type) `{Truthy A} : Truthy (js A) :=
  fun v => match v with Val a => truthy a | _ => false end.

(** [x || d] with a truthy right operand [d]: the result is never
    [undefined] or [null], so it is an [A]. *)
Definition or_else {A : Type} `{Truthy A} (x : js A) (d : A) : A :=
  match x with
  | Val a => if truthy a then a else d
  | _ => d
  end.

Notation "x '|||' d" := (or_else x d) (at level 50, left associativity).

(** [v === 'literal'] on a property that holds a string, if anything. *)
Definition strict_eq (v : js string) (s : string) : bool :=
  match v with
  | Val x => String.eqb x s
  | _ => false
  end.

Notation "v '===' s" := (strict_eq v s) (at level 70, no associativity).

(** [x?.p]: [undefined] when [x] is [undefined] or [null]. *)
Definition opt_chain {A B : Type} (x : js A) (p : A -> js B) : js B :=
  match x with
  | Val a => p a
  | _ => Undefined
  end.

(** *** String comparison

    [a < b] on two strings, as the language defines it: a proper prefix is
    smaller, otherwise the first position where the strings differ decides
    by character code.  The strings the service compares are times of day
    in ASCII. *)
Fixpoint str_lt (a b : string) : bool :=
  match a, b with
  | _, EmptyString => false
  | EmptyString, String _ _ => true
  | String x a', String y b' =>
      if (nat_of_ascii x <? nat_of_ascii y)%nat then true
      else if (nat_of_ascii x =? nat_of_ascii y)%nat then str_lt a' b'
      else false
  end.

(** [a >= b] is [!(a < b)] and [a <= b] is [!(b < a)]. *)
Definition str_ge (a b : string) : bool := negb (str_lt a b).
Definition str_le (a b : string) : bool := negb (str_lt b a).

(** ** Exceptions *)

Inductive Exc (A : Type) : Type :=
| Ok (a : A)
| Throw.

Arguments Ok {A} a.
Arguments Throw {A}.

Definition ret {A : Type} (a : A) : Exc A := Ok a.

Definition bind {A B : Type} (c : Exc A) (k : A -> Exc B) : Exc B :=
  match c with
  | Ok a => k a
  | Throw => Throw
  end.

Declare Scope exc_scope.
Delimit Scope exc_scope with exc.
Bind Scope exc_scope with Exc.

Notation "x <- c ;; k" := (bind c (fun x => k))
  (at level 61, c at next level, right associativity) : exc_scope.
Notation "' pat <- c ;; k" := (bind c (fun x => match x with pat => k end))
  (at level 61, pat pattern, c at next level, right associativity) : exc_scope.

Local Open Scope exc_scope.

(** [try { body } catch (e) { handler }]. *)
Definition try_catch {A : Type} (body handler : Exc A) : Exc A :=
  match body with
  | Ok a => Ok a
  | Throw => handler
  end.

Notation "'try_' body 'catch_' handler" := (try_catch body handler)
  (at level 10, body at level 200, handler at level 200).

(** [x.p]: reading a property of [undefined] or [null] throws. *)
Definition prop {A B : Type} (x : js A) (p : A -> js B) : Exc (js B) :=
  match x with
  | Val a => Ok (p a)
  | _ => Throw
  end.

(** [xs.map(f)], [xs.filter(p)], [xs.find(p)] and [xs.includes(v)] on a
    value that should be an array; the callbacks may throw. *)
Definition array_map {A B : Type} (f : A -> B) (xs : js (list A)) : Exc (list B) :=
  match xs with
  | Val l => Ok (map f l)
  | _ => Throw
  end.

Fixpoint array_filter {A : Type} (p : A -> Exc bool) (l : list A) : Exc (list A) :=
  match l with
  | [] => ret []
  | x :: rest =>
      keep <- p x ;;
      kept <- array_filter p rest ;;
      ret (if keep then x :: kept else kept)
  end.

Fixpoint array_find {A : Type} (p : A -> Exc bool) (l : list A) : Exc (js A) :=
  match l with
  | [] => ret Undefined
  | x :: rest =>
      hit <- p x ;;
      if hit then ret (Val x) else array_find p rest
  end.

Definition array_includes (xs : list Z) (v : Z) : bool :=
  existsb (Z.eqb v) xs.

(** ** Data model *)

(** A row of the table [ai_agents], and the Default Agent.  A column holds
    a value of the type the registry gives it (text, boolean, integer,
    array of weekday numbers), and may be missing or null in the object
    the service holds.  [other_columns] stands for the columns the service
    never reads; the spread of [enhanceAgentWithDefaults] copies them. *)
Record Agent : Type := mkAgent {
  id : js string;
  name : js string;
  agent_type : js string;
  voice_name : js string;
  language_code : js string;
  system_instruction : js string;
  greeting : js string;
  is_active : js bool;
  max_concurrent_calls : js Z;
  call_direction : js string;
  timezone : js string;
  business_hours_start : js string;
  business_hours_end : js string;
  business_days : js (list Z);
  twilio_phone_number : js string;
  created_at : js string;
  other_columns : list (string * string)
}.

(** An object is truthy. *)
#[global] Instance truthy_Agent : Truthy Agent := fun _ => true.

(** A row of [phone_numbers] with the row of [ai_agents] that the query
    joins to it. *)
Record PhoneNumber : Type := mkPhoneNumber {
  phone_number : js string;
  ai_agents : js Agent
}.

#[global] Instance truthy_PhoneNumber : Truthy PhoneNumber := fun _ => true.

(** A row of [call_logs] as [select('id')] returns it. *)
Record CallLog : Type := mkCallLog {
  call_log_id : js string
}.

(** The call data of the telephony webhook. *)
Record CallData : Type := mkCallData {
  From : js string;
  To : js string;
  CallSid : js string
}.

(** The environment variables read by the constructor. *)
Record ProcessEnv : Type := mkProcessEnv {
  VOICE_NAME : js string;
  LANGUAGE_CODE : js string;
  SYSTEM_INSTRUCTION : js string
}.

(** ** The registry client *)

(** The error object of a response. *)
Record StoreError : Type := mkStoreError {
  message : string
}.

#[global] Instance truthy_StoreError : Truthy StoreError := fun _ => true.

(** What awaiting a query gives: the promise rejects, or it resolves to
    [{ data, error }]. *)
Inductive Response (A : Type) : Type :=
| Rejected
| Resolved (data : js A) (error : js StoreError).

Arguments Rejected {A}.
Arguments Resolved {A} data error.

Definition await {A : Type} (r : Response A) : Exc (js A * js StoreError) :=
  match r with
  | Rejected => Throw
  | Resolved data error => Ok (data, error)
  end.

(** The local clock, as minutes elapsed since Sunday 00:00 of the running
    week; [new Date()] reads it. *)
Record Date : Type := mkDate {
  minute_of_week : nat
}.

Definition getDay (now : Date) : Z :=
  Z.of_nat ((minute_of_week now / 1440) mod 7).

Definition getHours (now : Date) : nat := (minute_of_week now / 60) mod 24.
Definition getMinutes (now : Date) : nat := minute_of_week now mod 60.

Definition digit (n : nat) : ascii := ascii_of_nat (48 + n mod 10).

Definition pad2 (n : nat) : string :=
  String (digit (n / 10)) (String (digit n) EmptyString).

(** [now.toTimeString().slice(0, 5)]: the local time as [HH:MM]. *)
Definition toTimeString_slice_0_5 (now : Date) : string :=
  (pad2 (getHours now) ++ ":" ++ pad2 (getMinutes now))%string.

(** One field for each query the service issues, in the order of the
    source; a query that names a key is a function of the key. *)
Record World : Type := mkWorld {
  (* getAgentByPhoneNumber: phone_numbers with its agent, by number *)
  phone_numbers_single : js string -> Response PhoneNumber;
  (* getAgentByPhoneNumber: ai_agents by twilio_phone_number *)
  ai_agents_by_primary_number : js string -> Response Agent;
  (* getAgentByBusinessHours: active agents, newest first *)
  ai_agents_for_business_hours : Response (list Agent);
  (* getActiveInboundAgent: active agents, newest first *)
  ai_agents_for_inbound : Response (list Agent);
  (* getActiveOutboundAgent: active agents, newest first *)
  ai_agents_for_outbound : Response (list Agent);
  (* getAgentById: ai_agents by id *)
  ai_agents_by_id : js string -> Response Agent;
  (* canAgentHandleCall: max_concurrent_calls of the agent *)
  ai_agents_limit : js string -> Response Agent;
  (* canAgentHandleCall: in-progress calls of the agent *)
  call_logs_in_progress : js string -> Response (list CallLog);
  (* new Date() *)
  now : Date
}.

(** ** The service *)

Definition dquote : string := String (ascii_of_nat 34) EmptyString.

(** The literal the constructor falls back to when [SYSTEM_INSTRUCTION] is
    not set. *)
Definition default_system_instruction : string :=
  ("You are a professional AI assistant for customer service calls. IMPORTANT: You MUST speak first immediately when the call connects. Start with a warm greeting like "
   ++ dquote ++ "Hello! Thank you for calling. How can I help you today?" ++ dquote
   ++ " Be helpful, polite, and efficient. Always initiate the conversation and maintain a friendly, professional tone throughout the call.")%string.

(** [this.defaultAgent], built once by the constructor. *)
Definition defaultAgent (env : ProcessEnv) : Agent :=
  {| id := Val "default";
     name := Val "Default AI Agent";
     agent_type := Val "general";
     voice_name := Val (VOICE_NAME env ||| "Puck");
     language_code := Val (LANGUAGE_CODE env ||| "en-US");
     system_instruction := Val (SYSTEM_INSTRUCTION env ||| default_system_instruction);
     greeting := Val "Hello! Thank you for calling. How can I help you today?";
     is_active := Val true;
     max_concurrent_calls := Val 10;
     call_direction := Val "inbound";
     timezone := Val "America/New_York";
     business_hours_start := Val "09:00";
     business_hours_end := Val "17:00";
     business_days := Val [1; 2; 3; 4; 5];
     twilio_phone_number := Undefined;
     created_at := Undefined;
     other_columns := [] |}.

(** The object literal of [enhanceAgentWithDefaults]: every property of
    [agent] is copied by the spread, then five of them are set again. *)
Definition withDefaults (agent : Agent) : Agent :=
  {| id := id agent;
     name := name agent;
     agent_type := agent_type agent;
     voice_name := voice_name agent;
     language_code := language_code agent;
     system_instruction := system_instruction agent;
     greeting := greeting agent;
     is_active := is_active agent;
     max_concurrent_calls := max_concurrent_calls agent;
     call_direction := Val (call_direction agent ||| "inbound");
     timezone := Val (timezone agent ||| "America/New_York");
     business_hours_start := Val (business_hours_start agent ||| "09:00");
     business_hours_end := Val (business_hours_end agent ||| "17:00");
     business_days := Val (business_days agent ||| [1; 2; 3; 4; 5]);
     twilio_phone_number := twilio_phone_number agent;
     created_at := created_at agent;
     other_columns := other_columns agent |}.

Definition enhanceAgentWithDefaults (agent : js Agent) : js Agent :=
  match agent with
  | Val a => Val (withDefaults a)      (* an object is truthy *)
  | _ => Null                          (* if (!agent) return null *)
  end.

(** [isAgentAvailable(agent, currentDay, currentTime)]. *)
Definition isAgentAvailable (agent : js Agent) (currentDay : Z) (currentTime : string)
  : Exc bool :=
  days <- prop agent business_days ;;
  let businessDays := days ||| [1; 2; 3; 4; 5] in
  if negb (array_includes businessDays currentDay) then ret false
  else
    start <- prop agent business_hours_start ;;
    let startTime := start ||| "09:00" in
    end_ <- prop agent business_hours_end ;;
    let endTime := end_ ||| "17:00" in
    ret (str_ge currentTime startTime && str_le currentTime endTime).

Section Service.

Variable env : ProcessEnv.
Variable w : World.

Definition getAgentByPhoneNumber (phoneNumber : js string) : Exc (js Agent) :=
  try_
    ('(phoneData, phoneError) <- await (phone_numbers_single w phoneNumber) ;;
     if negb (truthy phoneError)
        && truthy (opt_chain (opt_chain phoneData ai_agents) is_active)
     then
       assigned <- prop phoneData ai_agents ;;
       ret (enhanceAgentWithDefaults assigned)
     else
       '(agentData, agentError) <- await (ai_agents_by_primary_number w phoneNumber) ;;
       if negb (truthy agentError) && truthy agentData
       then ret (enhanceAgentWithDefaults agentData)
       else ret Null)
  catch_ (ret Null).

(** The [for ... of] loop of [getAgentByBusinessHours]: [Val agent] when
    the body returns [agent], [Undefined] when the loop runs to its end. *)
Fixpoint for_of_available (agents : list (js Agent)) (currentDay : Z)
    (currentTime : string) : Exc (js Agent) :=
  match agents with
  | [] => ret Undefined
  | agent :: rest =>
      available <- isAgentAvailable agent currentDay currentTime ;;
      if available then ret agent
      else for_of_available rest currentDay currentTime
  end.

Definition getAgentByBusinessHours (callDirection : string) : Exc (js Agent) :=
  try_
    (let currentDay := getDay (now w) in
     let currentTime := toTimeString_slice_0_5 (now w) in
     '(agents, error) <- await (ai_agents_for_business_hours w) ;;
     if truthy error then ret Null
     else
       enhanced <- array_map (fun agent => enhanceAgentWithDefaults (Val agent)) agents ;;
       enhancedAgents <- array_filter
                           (fun agent => direction <- prop agent call_direction ;;
                                         ret ((direction === callDirection)
                                              || (direction === "both")))
                           enhanced ;;
       inHours <- for_of_available enhancedAgents currentDay currentTime ;;
       if truthy inHours then ret inHours
       else
         found <- array_find
                    (fun agent => kind <- prop agent agent_type ;;
                                  ret (kind === "after_hours"))
                    enhancedAgents ;;
         match found with
         | Val afterHoursAgent => ret afterHoursAgent   (* an object: truthy *)
         | _ => ret Null
         end)
  catch_ (ret Null).

Definition getActiveInboundAgent : Exc (js Agent) :=
  try_
    ('(agents, error) <- await (ai_agents_for_inbound w) ;;
     if truthy error then ret Null
     else
       enhanced <- array_map (fun agent => enhanceAgentWithDefaults (Val agent)) agents ;;
       found <- array_find
                  (fun agent => direction <- prop agent call_direction ;;
                                ret ((direction === "inbound") || (direction === "both")))
                  enhanced ;;
       match found with
       | Val inboundAgent => ret inboundAgent        (* an object: truthy *)
       | _ => ret Null
       end)
  catch_ (ret Null).

Definition getActiveOutboundAgent : Exc (js Agent) :=
  try_
    ('(agents, error) <- await (ai_agents_for_outbound w) ;;
     if truthy error then ret Null
     else
       enhanced <- array_map (fun agent => enhanceAgentWithDefaults (Val agent)) agents ;;
       found <- array_find
                  (fun agent => direction <- prop agent call_direction ;;
                                ret ((direction === "outbound") || (direction === "both")))
                  enhanced ;;
       match found with
       | Val outboundAgent => ret outboundAgent      (* an object: truthy *)
       | _ => ret Null
       end)
  catch_ (ret Null).

Definition getAgentById (agentId : js string) : Exc (js Agent) :=
  try_
    ('(agent, error) <- await (ai_agents_by_id w agentId) ;;
     if negb (truthy error) && truthy agent
     then ret (enhanceAgentWithDefaults agent)
     else ret Null)
  catch_ (ret Null).

(** [routeIncomingCall(callData)].  Destructuring [callData] throws when
    it is [undefined] or [null]. *)
Definition routeIncomingCall (callData : js CallData) : Exc Agent :=
  try_
    (calledNumber <- prop callData To ;;
     agent1 <- getAgentByPhoneNumber calledNumber ;;
     agent2 <- (if negb (truthy agent1)
                then getAgentByBusinessHours "inbound" else ret agent1) ;;
     agent3 <- (if negb (truthy agent2)
                then getActiveInboundAgent else ret agent2) ;;
     match agent3 with
     | Val agent => ret agent
     | _ => ret (defaultAgent env)
     end)
  catch_ (ret (defaultAgent env)).

(** [routeOutboundCall(agentId, callData)]. *)
Definition routeOutboundCall (agentId : js string) (callData : js CallData)
  : Exc Agent :=
  try_
    (byId <- (if truthy agentId then getAgentById agentId else ret Null) ;;
     match byId with
     | Val agent =>
         if truthy (is_active agent)
            && ((call_direction agent === "outbound")
                || (call_direction agent === "both"))
         then ret agent
         else
           found <- getActiveOutboundAgent ;;
           ret (found ||| defaultAgent env)
     | _ =>
         found <- getActiveOutboundAgent ;;
         ret (found ||| defaultAgent env)
     end)
  catch_ (ret (defaultAgent env)).

(** [canAgentHandleCall(agentId)]. *)
Definition canAgentHandleCall (agentId : js string) : Exc bool :=
  try_
    ('(agent, agentError) <- await (ai_agents_limit w agentId) ;;
     if truthy agentError || negb (truthy agent) then ret false
     else
       '(activeCalls, callsError) <- await (call_logs_in_progress w agentId) ;;
       if truthy callsError then ret true
       else
         let currentCalls :=
           opt_chain activeCalls (fun calls => Val (Z.of_nat (List.length calls))) ||| 0 in
         limit <- prop agent max_concurrent_calls ;;
         let maxCalls := limit ||| 5 in
         ret (currentCalls <? maxCalls))
  catch_ (ret true).

End Service.

(** ** The same copy on a store of objects

    Objects live in a store and are named by their position in it.  The
    object literal of [enhanceAgentWithDefaults] allocates a new object at
    the end of the store; no statement of the function writes to an object
    that exists. *)
Definition Store : Type := list Agent.

Definition enhanceAgentWithDefaults_ref (store : Store) (agent : js nat)
  : Store * js nat :=
  match agent with
  | Val ref =>
      match nth_error store ref with
      | Some object => ((store ++ [withDefaults object])%list, Val (List.length store))
      | None => (store, Null)          (* no object at [ref]: not a reference *)
      end
  | _ => (store, Null)
  end.

(** ** Vocabulary of the specification

    The words the specification uses for the registry, read off a
    [World]: what a lookup found, which agents accept a call direction,
    whose availability window covers a moment. *)

(** The rows a lookup delivered: it resolved, reported no error, and
    carried data.  [None] covers both "not found" and "failed". *)
Definition answer {A : Type} (r : Response A) : option A :=
  match r with
  | Resolved (Val d) e => if truthy e then None else Some d
  | _ => None
  end.

(** A lookup failed: the promise rejected or the response carries an
    error. *)
Definition failed {A : Type} (r : Response A) : Prop :=
  r = Rejected \/ exists d e, r = Resolved d (Val e).

Definition accepts_direction (direction : string) (a : Agent) : bool :=
  (call_direction a === direction) || (call_direction a === "both").

Definition is_after_hours (a : Agent) : bool :=
  agent_type a === "after_hours".

(** The availability window of [a] covers weekday [day] at time [time]. *)
Definition covers (day : Z) (time : string) (a : Agent) : bool :=
  array_includes (business_days a ||| [1; 2; 3; 4; 5]) day
  && (str_ge time (business_hours_start a ||| "09:00")
      && str_le time (business_hours_end a ||| "17:00")).

(** The active agents of a listing that accept [direction], with their
    defaults, newest first. *)
Definition candidates (direction : string) (r : Response (list Agent)) : list Agent :=
  match answer r with
  | Some rows => filter (accepts_direction direction) (map withDefaults rows)
  | None => []
  end.

(** The agent the assignment table gives to a number: the assignment row
    was found and its agent is active. *)
Definition assigned_by_table (w : World) (number : js string) : option Agent :=
  match answer (phone_numbers_single w number) with
  | Some row =>
      match ai_agents row with
      | Val a => if truthy (is_active a) then Some a else None
      | _ => None
      end
  | None => None
  end.

(** The agent that has the number as its own primary number. *)
Definition assigned_by_primary_number (w : World) (number : js string) : option Agent :=
  answer (ai_agents_by_primary_number w number).

(** Step 1: the assignment table first, then the primary-number field; a
    table lookup that throws ends the step. *)
Definition assigned_agent (w : World) (number : js string) : option Agent :=
  match assigned_by_table w number with
  | Some a => Some a
  | None =>
      match phone_numbers_single w number with
      | Rejected => None
      | Resolved _ _ => assigned_by_primary_number w number
      end
  end.

(** Step 2: the newest inbound-or-both agent whose window covers now. *)
Definition open_agent (w : World) : option Agent :=
  find (covers (getDay (now w)) (toTimeString_slice_0_5 (now w)))
       (candidates "inbound" (ai_agents_for_business_hours w)).

(** The after-hours agent step 2 falls back to. *)
Definition after_hours_agent (w : World) : option Agent :=
  find is_after_hours (candidates "inbound" (ai_agents_for_business_hours w)).

Definition js_of_option {A : Type} (o : option A) : js A :=
  match o with
  | Some a => Val a
  | None => Null
  end.

(** What step 2 and step 3 of the inbound chain come to. *)
Definition step2 (w : World) : js Agent :=
  match open_agent w with
  | Some a => Val a
  | None => js_of_option (after_hours_agent w)
  end.

Definition step3 (w : World) : js Agent :=
  js_of_option (hd_error (candidates "inbound" (ai_agents_for_inbound w))).

(** The general outbound search followed by the Default Agent. *)
Definition outbound_fallback (env : ProcessEnv) (w : World) : Agent :=
  match hd_error (candidates "outbound" (ai_agents_for_outbound w)) with
  | Some b => b
  | None => defaultAgent env
  end.

(** The first value of a chain of tries that is not [null], or [d]. *)
Fixpoint first_success (tries : list (js Agent)) (d : Agent) : Agent :=
  match tries with
  | [] => d
  | Val a :: _ => a
  | _ :: rest => first_success rest d
  end.

(** The five availability fields hold a value. *)
Definition holds {A : Type} (v : js A) : Prop := exists x, v = Val x.

Definition availability_fields_present (a : Agent) : Prop :=
  holds (call_direction a) /\ holds (timezone a)
  /\ holds (business_hours_start a) /\ holds (business_hours_end a)
  /\ holds (business_days a).

(** Lexicographic order on strings by character code. *)
Inductive lex_lt : string -> string -> Prop :=
| lex_lt_prefix : forall c t, lex_lt EmptyString (String c t)
| lex_lt_head : forall c d s t,
    (nat_of_ascii c < nat_of_ascii d)%nat -> lex_lt (String c s) (String d t)
| lex_lt_tail : forall c s t, lex_lt s t -> lex_lt (String c s) (String c t).

Definition lex_le (s t : string) : Prop := s = t \/ lex_lt s t.

(** The number of calls in progress that a count query delivered. *)
Definition in_progress_count (calls : js (list CallLog)) : Z :=
  match calls with
  | Val l => Z.of_nat (List.length l)
  | _ => 0
  end.

(** A field after the copy, against the field before it and its default
    [d]: a truthy field is kept as it is, any other field holds [d]. *)
Definition defaulted {A : Type} `{Truthy A} (before after : js A) (d : A) : Prop :=
  (truthy before = true -> after = before)
  /\ (truthy before = false -> after = Val d).

(** The fields the copy does not set are those of the argument. *)
Definition same_other_fields (a e : Agent) : Prop :=
  id e = id a /\ name e = name a /\ agent_type e = agent_type a
  /\ voice_name e = voice_name a /\ language_code e = language_code a
  /\ system_instruction e = system_instruction a /\ greeting e = greeting a
  /\ is_active e = is_active a /\ max_concurrent_calls e = max_concurrent_calls a
  /\ twilio_phone_number e = twilio_phone_number a /\ created_at e = created_at a
  /\ other_columns e = other_columns a.

(** ** Sample registries

    Concrete worlds on which the theorems below are run. *)

Definition no_env : ProcessEnv :=
  {| VOICE_NAME := Undefined; LANGUAGE_CODE := Undefined; SYSTEM_INSTRUCTION := Undefined |}.

Definition store_error : js StoreError := Val {| message := "connection refused" |}.

(** What [single()] answers when no row matches. *)
Definition no_row {A : Type} : Response A :=
  Resolved Null (Val {| message := "no rows returned" |}).

(** An agent row with the columns the routing reads. *)
Definition agent_row (ident kind : string) (active : bool) (direction : js string)
    (start finish : js string) (days : js (list Z)) : Agent :=
  {| id := Val ident;
     name := Val ident;
     agent_type := Val kind;
     voice_name := Null;
     language_code := Null;
     system_instruction := Null;
     greeting := Null;
     is_active := Val active;
     max_concurrent_calls := Null;
     call_direction := direction;
     timezone := Null;
     business_hours_start := start;
     business_hours_end := finish;
     business_days := days;
     twilio_phone_number := Null;
     created_at := Val "2024-01-01T00:00:00Z";
     other_columns := [] |}.

(** The row [{ max_concurrent_calls }] of the limit query. *)
Definition limit_row (limit : js Z) : Agent :=
  {| id := Undefined; name := Undefined; agent_type := Undefined;
     voice_name := Undefined; language_code := Undefined;
     system_instruction := Undefined; greeting := Undefined;
     is_active := Undefined; max_concurrent_calls := limit;
     call_direction := Undefined; timezone := Undefined;
     business_hours_start := Undefined; business_hours_end := Undefined;
     business_days := Undefined; twilio_phone_number := Undefined;
     created_at := Undefined; other_columns := [] |}.

(** A registry that answers every key alike and every listing alike. *)
Definition world_of (assignment : Response PhoneNumber) (primary : Response Agent)
    (listing : Response (list Agent)) (byId : Response Agent)
    (limit : Response Agent) (calls : Response (list CallLog)) (minute : nat) : World :=
  {| phone_numbers_single := fun _ => assignment;
     ai_agents_by_primary_number := fun _ => primary;
     ai_agents_for_business_hours := listing;
     ai_agents_for_inbound := listing;
     ai_agents_for_outbound := listing;
     ai_agents_by_id := fun _ => byId;
     ai_agents_limit := fun _ => limit;
     call_logs_in_progress := fun _ => calls;
     now := {| minute_of_week := minute |} |}.

(** A registry of which every lookup reports a store error. *)
Definition failing_world : World :=
  world_of (Resolved Null store_error) (Resolved Null store_error)
           (Resolved Null store_error) (Resolved Null store_error)
           (Resolved Null store_error) (Resolved Null store_error) 0.

Definition sample_call : CallData :=
  {| From := Val "+15550100"; To := Val "+15550199"; CallSid := Val "CA0001" |}.

(** Monday 10:30 and Sunday 00:00 as minutes of the week. *)
Definition monday_10_30 : nat := 1440 + 630.
Definition sunday_00_00 : nat := 0.

(** An active sales agent open Monday to Friday, 09:00 to 17:00, and an
    inactive one. *)
Definition sales_agent : Agent :=
  agent_row "sales" "sales" true (Val "inbound") (Val "09:00") (Val "17:00")
            (Val [1; 2; 3; 4; 5]).

Definition retired_agent : Agent :=
  agent_row "retired" "general" false (Val "inbound") (Val "09:00") (Val "17:00")
            (Val [1; 2; 3; 4; 5]).

(** Two night desks of type [after_hours]: one takes inbound calls, one
    places outbound calls only. *)
Definition night_desk : Agent :=
  agent_row "night" "after_hours" true (Val "inbound") (Val "09:00") (Val "17:00")
            (Val [1; 2; 3; 4; 5]).

Definition night_dialer : Agent :=
  agent_row "dialer" "after_hours" true (Val "outbound") (Val "09:00") (Val "17:00")
            (Val [1; 2; 3; 4; 5]).

(** An outbound campaign agent. *)
Definition campaign_agent : Agent :=
  agent_row "campaign" "sales" true (Val "outbound") Null Null Null.

(** An agent whose time zone column holds the empty string. *)
Definition unzoned_agent : Agent :=
  {| id := Val "unzoned";
     name := Val "Weekend desk";
     agent_type := Val "general";
     voice_name := Val "Kore";
     language_code := Null;
     system_instruction := Null;
     greeting := Null;
     is_active := Val true;
     max_concurrent_calls := Val 2;
     call_direction := Val "both";
     timezone := Val "";
     business_hours_start := Val "08:00";
     business_hours_end := Undefined;
     business_days := Val [0; 6];
     twilio_phone_number := Null;
     created_at := Val "2024-02-01T00:00:00Z";
     other_columns := [("department", "weekend")] |}.

(** Assignment rows of the called number. *)
Definition retired_assignment : PhoneNumber :=
  {| phone_number := Val "+15550199"; ai_agents := Val retired_agent |}.

Definition campaign_assignment : PhoneNumber :=
  {| phone_number := Val "+15550199"; ai_agents := Val campaign_agent |}.

Definition found {A : Type} (d : A) : Response A := Resolved (Val d) Null.

(** The number is assigned to the retired agent; nobody else is active. *)
Definition world_retired_assignment : World :=
  world_of (found retired_assignment) no_row (found []) no_row no_row (found [])
           monday_10_30.

(** The number is assigned to the campaign agent, on a Sunday at midnight,
    while the sales agent is active. *)
Definition world_campaign_assignment : World :=
  world_of (found campaign_assignment) no_row (found [sales_agent]) no_row no_row
           (found []) sunday_00_00.

(** Sunday at midnight, no assignment; the only active agent is the
    outbound night dialer. *)
Definition world_night_dialer : World :=
  world_of no_row no_row (found [night_dialer]) no_row no_row (found []) sunday_00_00.


(** The sales agent is looked up by id while the campaign agent is
    active too. *)
Definition world_outbound : World :=
  world_of no_row no_row (found [sales_agent; campaign_agent]) (found sales_agent)
           no_row (found []) monday_10_30.

(** The limit fetch reports a store error. *)
Definition world_limit_error : World :=
  world_of no_row no_row (found []) no_row (Resolved Null store_error) (found [])
           monday_10_30.

(** The limit is 3 and the count query reports a store error. *)
Definition world_count_error : World :=
  world_of no_row no_row (found []) no_row (found (limit_row (Val 3)))
           (Resolved Null store_error) monday_10_30.

(** The limit column is null and four calls are in progress. *)
Definition four_calls : list CallLog :=
  [ {| call_log_id := Val "c1" |}; {| call_log_id := Val "c2" |};
    {| call_log_id := Val "c3" |}; {| call_log_id := Val "c4" |} ].

Definition world_null_limit : World :=
  world_of no_row no_row (found []) no_row (found (limit_row Null))
           (found four_calls) monday_10_30.

(** ** The remaining entry points

    [getAgentByType] and [getRoutingStats] issue two more queries; what
    the registry answers to them is a [Reporting]. *)

(** A row of [call_logs] as [getRoutingStats] selects it, with the name
    and type of its agent joined. *)
Record RoutingStat : Type := mkRoutingStat {
  stat_agent_id : js string;
  stat_routing_reason : js string;
  stat_ai_agents : js Agent
}.

Record Reporting : Type := mkReporting {
  (* getAgentByType: active agents of a type, newest first *)
  ai_agents_by_type : js string -> Response (list Agent);
  (* getRoutingStats: call_logs of the last 24 hours *)
  call_logs_last_day : Response (list RoutingStat)
}.

(** What [getRoutingStats] returns: the [data] of the response as it came,
    or the empty object literal. *)
Inductive Stats : Type :=
| StatsData (stats : js (list RoutingStat))
| EmptyObject.

Section Reports.

Variable q : Reporting.

(** [getAgentByType(agentType, callDirection = 'inbound')]. *)
Definition getAgentByType (agentType : js string) (callDirection : string)
  : Exc (js Agent) :=
  try_
    ('(agents, error) <- await (ai_agents_by_type q agentType) ;;
     if truthy error then ret Null
     else
       enhanced <- array_map (fun agent => enhanceAgentWithDefaults (Val agent)) agents ;;
       found <- array_find
                  (fun agent => direction <- prop agent call_direction ;;
                                ret ((direction === callDirection)
                                     || (direction === "both")))
                  enhanced ;;
       match found with
       | Val matchingAgent => ret matchingAgent      (* an object: truthy *)
       | _ => ret Null
       end)
  catch_ (ret Null).

(** [getRoutingStats()]. *)
Definition getRoutingStats : Exc Stats :=
  try_
    ('(stats, error) <- await (call_logs_last_day q) ;;
     if truthy error then ret EmptyObject
     else ret (StatsData stats))
  catch_ (ret EmptyObject).

End Reports.

(** ** More vocabulary *)

(** The time of day [h:m] as the clock writes it. *)
Definition clock (h m : nat) : string :=
  (pad2 h ++ ":" ++ pad2 m)%string.

(** The minute of the day of a date. *)
Definition minute_of_day (d : Date) : nat := (minute_of_week d mod 1440)%nat.

(** The business days and hours in effect for an agent. *)
Definition effective_days (a : Agent) : list Z := business_days a ||| [1; 2; 3; 4; 5].
Definition effective_start (a : Agent) : string := business_hours_start a ||| "09:00".
Definition effective_end (a : Agent) : string := business_hours_end a ||| "17:00".

(** ** More sample registries *)

(** A night shift from 22:00 to 06:00 on every day of the week. *)
Definition night_shift : Agent :=
  agent_row "shift" "general" true (Val "inbound") (Val "22:00") (Val "06:00")
            (Val [0; 1; 2; 3; 4; 5; 6]).

(** An agent with an empty array of business days. *)
Definition dayless_agent : Agent :=
  agent_row "dayless" "general" true (Val "inbound") (Val "00:00") (Val "23:59")
            (Val []).

(** An agent row without a call direction. *)
Definition plain_agent : Agent :=
  agent_row "plain" "general" true Null Null Null Null.

(** The sales agent and the campaign agent are active; the campaign agent
    is looked up by id. *)
Definition world_campaign_by_id : World :=
  world_of no_row no_row (found [sales_agent; campaign_agent]) (found campaign_agent)
           no_row (found []) monday_10_30.

(** No assignment row; the number is the primary number of the campaign
    agent, on a Sunday at midnight, while the sales agent is active. *)
Definition world_primary_number : World :=
  world_of no_row (found campaign_agent) (found [sales_agent]) no_row no_row (found [])
           sunday_00_00.

(** The number is assigned to the retired agent, who is not active, and is
    the primary number of the sales agent. *)
Definition world_retired_with_primary : World :=
  world_of (found retired_assignment) (found sales_agent) (found []) no_row no_row
           (found []) monday_10_30.

(** The limit fetch throws. *)
Definition world_limit_throws : World :=
  world_of no_row no_row (found []) no_row Rejected (found []) monday_10_30.

(** The table lookup throws while the number is the primary number of the
    sales agent; nobody is listed. *)
Definition world_table_rejects : World :=
  world_of Rejected (found sales_agent) (found []) no_row no_row (found [])
           monday_10_30.

(** Only agents without a call direction are active. *)
Definition world_plain : World :=
  world_of no_row no_row (found [plain_agent]) no_row no_row (found []) monday_10_30.

(** The limit is 3 and three calls are in progress. *)
Definition three_calls : list CallLog :=
  [ {| call_log_id := Val "c1" |}; {| call_log_id := Val "c2" |};
    {| call_log_id := Val "c3" |} ].

Definition world_full : World :=
  world_of no_row no_row (found []) no_row (found (limit_row (Val 3)))
           (found three_calls) monday_10_30.

(** A registry of types with the two night desks, the dialer first. *)
Definition reporting_night : Reporting :=
  {| ai_agents_by_type := fun _ => found [night_dialer; night_desk];
     call_logs_last_day := Resolved Null store_error |}.

(** * Supporting lemmas *)

(** ** Strings *)

Lemma nat_of_ascii_inj (c d : ascii) : nat_of_ascii c = nat_of_ascii d -> c = d.
Proof.
  intros H. rewrite <- (ascii_nat_embedding c), <- (ascii_nat_embedding d).
  now rewrite H.
Qed.

Lemma str_lt_lex (a b : string) : str_lt a b = true <-> lex_lt a b.
Proof.
  revert b. induction a as [|x a IH]; intros [|y b]; simpl.
  - split; [discriminate | inversion 1].
  - split; [constructor | reflexivity].
  - split; [discriminate | inversion 1].
  - destruct (Nat.ltb_spec (nat_of_ascii x) (nat_of_ascii y)) as [Hlt|Hge].
    + split; [intros _; now constructor | reflexivity].
    + destruct (Nat.eqb_spec (nat_of_ascii x) (nat_of_ascii y)) as [Heq|Hne].
      * apply nat_of_ascii_inj in Heq. subst y. rewrite IH.
        split; [now constructor | ].
        inversion 1; subst; [lia | assumption].
      * split; [discriminate | ].
        inversion 1; subst; [lia | congruence].
Qed.

Lemma lex_lt_irrefl (a : string) : ~ lex_lt a a.
Proof.
  induction a as [|x a IH]; inversion 1; subst; [lia | auto].
Qed.

Lemma lex_trichotomy (a b : string) : lex_lt a b \/ a = b \/ lex_lt b a.
Proof.
  revert b. induction a as [|x a IH]; intros [|y b].
  - auto.
  - left. constructor.
  - right. right. constructor.
  - destruct (Nat.lt_trichotomy (nat_of_ascii x) (nat_of_ascii y)) as [H|[H|H]].
    + left. now constructor.
    + apply nat_of_ascii_inj in H. subst y.
      destruct (IH b) as [H|[H|H]].
      * left. now constructor.
      * right. left. now subst.
      * right. right. now constructor.
    + right. right. now constructor.
Qed.

Lemma lex_lt_asym (a b : string) : lex_lt a b -> ~ lex_lt b a.
Proof.
  induction 1; inversion 1; subst; try lia; auto.
Qed.

Lemma str_le_lex (a b : string) : str_le a b = true <-> lex_le a b.
Proof.
  unfold str_le, lex_le. rewrite negb_true_iff, <- not_true_iff_false, str_lt_lex.
  split.
  - intros Hn. destruct (lex_trichotomy a b) as [H|[H|H]]; tauto.
  - intros [->|H]; [apply lex_lt_irrefl | now apply lex_lt_asym].
Qed.

Lemma str_ge_lex (a b : string) : str_ge a b = true <-> lex_le b a.
Proof. apply (str_le_lex b a). Qed.

(** *** Times of day

    The local time is written with two digits for the hour and two for the
    minute, so that two times of a day compare as strings the way they
    compare as times. *)

Section TimesOfDay.

Local Open Scope nat_scope.

Lemma nat_of_ascii_digit (n : nat) : nat_of_ascii (digit n) = 48 + n mod 10.
Proof.
  unfold digit. apply nat_ascii_embedding.
  pose proof (Nat.mod_upper_bound n 10). lia.
Qed.

Lemma str_lt_pad2 (a b : nat) (s t : string) :
  a < 100 -> b < 100 ->
  str_lt (pad2 a ++ s)%string (pad2 b ++ t)%string
  = if a <? b then true else if a =? b then str_lt s t else false.
Proof.
  intros Ha Hb. unfold pad2. cbn [String.append str_lt]. rewrite !nat_of_ascii_digit.
  pose proof (Nat.div_mod_eq a 10). pose proof (Nat.div_mod_eq b 10).
  pose proof (Nat.mod_upper_bound a 10). pose proof (Nat.mod_upper_bound b 10).
  assert (a / 10 < 10) by (apply Nat.Div0.div_lt_upper_bound; lia).
  assert (b / 10 < 10) by (apply Nat.Div0.div_lt_upper_bound; lia).
  rewrite (Nat.mod_small (a / 10)), (Nat.mod_small (b / 10)) by assumption.
  destruct (Nat.ltb_spec (48 + a / 10) (48 + b / 10)).
  - destruct (Nat.ltb_spec a b); [reflexivity | lia].
  - destruct (Nat.eqb_spec (48 + a / 10) (48 + b / 10)).
    + destruct (Nat.ltb_spec (48 + a mod 10) (48 + b mod 10)).
      * destruct (Nat.ltb_spec a b); [reflexivity | lia].
      * destruct (Nat.eqb_spec (48 + a mod 10) (48 + b mod 10)).
        -- destruct (Nat.ltb_spec a b); [lia|].
           destruct (Nat.eqb_spec a b); [reflexivity | lia].
        -- destruct (Nat.ltb_spec a b); [lia|].
           destruct (Nat.eqb_spec a b); [lia | reflexivity].
    + destruct (Nat.ltb_spec a b); [lia|].
      destruct (Nat.eqb_spec a b); [lia | reflexivity].
Qed.

Lemma str_lt_clock (h1 m1 h2 m2 : nat) :
  h1 < 24 -> m1 < 60 -> h2 < 24 -> m2 < 60 ->
  str_lt (pad2 h1 ++ ":" ++ pad2 m1)%string (pad2 h2 ++ ":" ++ pad2 m2)%string
  = (60 * h1 + m1 <? 60 * h2 + m2).
Proof.
  intros. rewrite str_lt_pad2 by lia.
  destruct (Nat.ltb_spec h1 h2).
  - symmetry. apply Nat.ltb_lt. lia.
  - destruct (Nat.eqb_spec h1 h2).
    + subst h2. change (":" ++ pad2 m1)%string with (String ":" (pad2 m1 ++ "")).
      change (":" ++ pad2 m2)%string with (String ":" (pad2 m2 ++ "")).
      cbn [str_lt]. rewrite Nat.ltb_irrefl, Nat.eqb_refl.
      rewrite str_lt_pad2 by lia. cbn [str_lt].
      destruct (Nat.ltb_spec m1 m2).
      * symmetry. apply Nat.ltb_lt. lia.
      * destruct (Nat.eqb_spec m1 m2); symmetry; apply Nat.ltb_ge; lia.
    + symmetry. apply Nat.ltb_ge. lia.
Qed.

Lemma clock_minutes (now : Date) :
  60 * getHours now + getMinutes now = minute_of_week now mod 1440.
Proof.
  unfold getHours, getMinutes.
  change 1440 with (60 * 24). rewrite Nat.Div0.mod_mul_r. lia.
Qed.

Lemma time_of_day_order (d1 d2 : Date) :
  str_le (toTimeString_slice_0_5 d1) (toTimeString_slice_0_5 d2)
  = (minute_of_week d1 mod 1440 <=? minute_of_week d2 mod 1440).
Proof.
  unfold str_le, toTimeString_slice_0_5.
  rewrite str_lt_clock, !clock_minutes.
  - symmetry. apply Nat.leb_antisym.
  - apply Nat.mod_upper_bound. discriminate.
  - apply Nat.mod_upper_bound. discriminate.
  - apply Nat.mod_upper_bound. discriminate.
  - apply Nat.mod_upper_bound. discriminate.
Qed.

End TimesOfDay.

(** ** The array methods on arrays of objects *)

Lemma isAgentAvailable_Val (a : Agent) (day : Z) (time : string) :
  isAgentAvailable (Val a) day time = Ok (covers day time a).
Proof.
  unfold isAgentAvailable, covers. simpl.
  now destruct (array_includes _ day).
Qed.

Lemma array_filter_Val {A : Type} (p : js A -> Exc bool) (q : A -> bool) (l : list A) :
  (forall a, p (Val a) = Ok (q a)) ->
  array_filter p (map Val l) = Ok (map Val (filter q l)).
Proof.
  intros Hp. induction l as [|a l IH]; simpl; [reflexivity|].
  rewrite Hp, IH. simpl. now destruct (q a).
Qed.

Lemma array_find_Val {A : Type} (p : js A -> Exc bool) (q : A -> bool) (l : list A) :
  (forall a, p (Val a) = Ok (q a)) ->
  array_find p (map Val l)
  = Ok (match find q l with Some a => Val (Val a) | None => Undefined end).
Proof.
  intros Hp. induction l as [|a l IH]; simpl; [reflexivity|].
  rewrite Hp. simpl. now destruct (q a).
Qed.

Lemma for_of_available_Val (l : list Agent) (day : Z) (time : string) :
  for_of_available (map Val l) day time
  = Ok (match find (covers day time) l with Some a => Val a | None => Undefined end).
Proof.
  induction l as [|a l IH]; simpl; [reflexivity|].
  rewrite isAgentAvailable_Val. simpl. now destruct (covers day time a).
Qed.

Lemma map_enhance (rows : list Agent) :
  map (fun agent => enhanceAgentWithDefaults (Val agent)) rows
  = map Val (map withDefaults rows).
Proof. now rewrite map_map. Qed.

Lemma find_filter_head {A : Type} (q : A -> bool) (l : list A) :
  find q l = hd_error (filter q l).
Proof.
  induction l as [|a l IH]; simpl; [reflexivity|]. now destruct (q a).
Qed.

(** ** What each lookup returns *)

Section Lookups.

Variable w : World.

(** An [answer] in terms of the response. *)
Lemma answer_Some {A : Type} (r : Response A) (d : A) :
  answer r = Some d <-> exists e, r = Resolved (Val d) e /\ truthy e = false.
Proof.
  unfold answer. split.
  - destruct r as [|[| |x] e]; try discriminate.
    destruct (truthy e) eqn:He; [discriminate|].
    intros [= ->]. now exists e.
  - intros (e & -> & He). now rewrite He.
Qed.

Lemma failed_answer {A : Type} (r : Response A) : failed r -> answer r = None.
Proof.
  intros [->|(d & e & ->)]; [reflexivity|].
  unfold answer. now destruct d.
Qed.

Lemma failed_candidates (direction : string) (r : Response (list Agent)) :
  failed r -> candidates direction r = [].
Proof. intros H. unfold candidates. now rewrite failed_answer. Qed.

Lemma getAgentByPhoneNumber_eq (number : js string) :
  getAgentByPhoneNumber w number
  = Ok (match assigned_agent w number with
        | Some a => Val (withDefaults a)
        | None => Null
        end).
Proof.
  unfold getAgentByPhoneNumber, assigned_agent, assigned_by_table,
    assigned_by_primary_number, answer.
  destruct (phone_numbers_single w number) as [|phoneData phoneError];
    [reflexivity|].
  simpl.
  destruct phoneError as [| |e]; simpl.
  3: { destruct phoneData as [| |row]; simpl;
       destruct (ai_agents_by_primary_number w number) as [|[| |a] [| |e']];
       reflexivity. }
  all: destruct phoneData as [| |row]; simpl;
    try (destruct (ai_agents_by_primary_number w number) as [|[| |a] [| |e']];
         reflexivity).
  all: destruct (ai_agents row) as [| |a]; simpl;
    try (destruct (ai_agents_by_primary_number w number) as [|[| |a'] [| |e']];
         reflexivity).
  all: destruct (is_active a) as [| |[|]]; simpl;
    try reflexivity;
    destruct (ai_agents_by_primary_number w number) as [|[| |a'] [| |e']];
    reflexivity.
Qed.

Lemma getAgentByBusinessHours_eq :
  getAgentByBusinessHours w "inbound"
  = Ok (match open_agent w with
        | Some a => Val a
        | None => js_of_option (after_hours_agent w)
        end).
Proof.
  unfold getAgentByBusinessHours, open_agent, after_hours_agent, candidates, answer.
  destruct (ai_agents_for_business_hours w) as [|agents error]; [reflexivity|].
  simpl.
  destruct error as [| |e]; simpl.
  3: { now destruct agents. }
  all: destruct agents as [| |rows]; simpl; try reflexivity.
  all: rewrite map_enhance;
    rewrite (array_filter_Val _ (accepts_direction "inbound"))
      by reflexivity;
    simpl; rewrite for_of_available_Val; simpl;
    match goal with
    | |- context [find (covers ?d ?t) ?l] => destruct (find (covers d t) l)
    end; simpl; try reflexivity;
    rewrite (array_find_Val _ is_after_hours) by reflexivity;
    simpl;
    match goal with
    | |- context [find is_after_hours ?l] => destruct (find is_after_hours l)
    end; reflexivity.
Qed.

(** One proof for the two listings that return their first match. *)
Ltac first_match direction :=
  unfold candidates, answer;
  match goal with
  | |- context [await ?r] => destruct r as [|[| |?] [| |?]]
  end;
  simpl; try reflexivity;
  rewrite map_enhance;
  rewrite (array_find_Val _ (accepts_direction direction)) by reflexivity;
  rewrite find_filter_head;
  simpl; now destruct (hd_error _).

Lemma getActiveInboundAgent_eq :
  getActiveInboundAgent w
  = Ok (js_of_option (hd_error (candidates "inbound" (ai_agents_for_inbound w)))).
Proof. unfold getActiveInboundAgent. first_match "inbound". Qed.

Lemma getActiveOutboundAgent_eq :
  getActiveOutboundAgent w
  = Ok (js_of_option (hd_error (candidates "outbound" (ai_agents_for_outbound w)))).
Proof. unfold getActiveOutboundAgent. first_match "outbound". Qed.

Lemma getAgentById_eq (agentId : js string) :
  getAgentById w agentId
  = Ok (match answer (ai_agents_by_id w agentId) with
        | Some a => Val (withDefaults a)
        | None => Null
        end).
Proof.
  unfold getAgentById, answer.
  destruct (ai_agents_by_id w agentId) as [|[| |a] [| |e]]; reflexivity.
Qed.

End Lookups.

(** ** The two routing functions as chains of tries *)

Section Routing.

Variable env : ProcessEnv.
Variable w : World.

Lemma routeIncomingCall_eq (cd : CallData) :
  routeIncomingCall env w (Val cd)
  = Ok (first_success
          [js_of_option (option_map withDefaults (assigned_agent w (To cd)));
           step2 w; step3 w]
          (defaultAgent env)).
Proof.
  unfold routeIncomingCall. simpl.
  rewrite getAgentByPhoneNumber_eq. simpl.
  destruct (assigned_agent w (To cd)) as [a|]; simpl; [reflexivity|].
  rewrite getAgentByBusinessHours_eq. fold (step2 w). simpl.
  destruct (step2 w) as [| |a2] eqn:E2; simpl; try reflexivity;
    rewrite getActiveInboundAgent_eq; fold (step3 w); simpl;
    now destruct (step3 w).
Qed.

Lemma routeIncomingCall_nullish (callData : js CallData) :
  callData = Undefined \/ callData = Null ->
  routeIncomingCall env w callData = Ok (defaultAgent env).
Proof. now intros [->| ->]. Qed.

Lemma outbound_search_eq :
  bind (getActiveOutboundAgent w) (fun found => ret (found ||| defaultAgent env))
  = Ok (outbound_fallback env w).
Proof.
  unfold outbound_fallback.
  rewrite getActiveOutboundAgent_eq. simpl.
  now destruct (hd_error _).
Qed.

Lemma routeOutboundCall_eq (agentId : js string) (callData : js CallData) :
  routeOutboundCall env w agentId callData
  = Ok (match (if truthy agentId then answer (ai_agents_by_id w agentId) else None) with
        | Some a =>
            if truthy (is_active a) && accepts_direction "outbound" (withDefaults a)
            then withDefaults a
            else outbound_fallback env w
        | None => outbound_fallback env w
        end).
Proof.
  unfold routeOutboundCall.
  destruct (truthy agentId).
  - rewrite getAgentById_eq. simpl.
    destruct (answer (ai_agents_by_id w agentId)) as [a|]; simpl.
    + unfold accepts_direction.
      destruct (truthy (is_active a) && _); simpl; [reflexivity|].
      now rewrite outbound_search_eq.
    + now rewrite outbound_search_eq.
  - simpl. now rewrite outbound_search_eq.
Qed.

End Routing.

(** ** Defaults *)

Lemma or_else_truthy {A : Type} `{Truthy A} (x : js A) (d : A) :
  truthy d = true -> truthy (x ||| d) = true.
Proof.
  intros Hd. unfold or_else. destruct x as [| |a]; try assumption.
  now destruct (truthy a) eqn:E.
Qed.

Lemma or_else_keeps {A : Type} `{Truthy A} (x : js A) (d : A) :
  truthy x = true -> Val (x ||| d) = x.
Proof.
  destruct x as [| |a]; simpl; try discriminate.
  unfold truthy at 1. simpl. now intros ->.
Qed.

Lemma or_else_fills {A : Type} `{Truthy A} (x : js A) (d : A) :
  truthy x = false -> x ||| d = d.
Proof.
  destruct x as [| |a]; simpl; try reflexivity.
  unfold truthy at 1. simpl. now intros ->.
Qed.

Lemma withDefaults_present (a : Agent) : availability_fields_present (withDefaults a).
Proof. repeat split; simpl; eexists; reflexivity. Qed.

Lemma defaultAgent_present (env : ProcessEnv) : availability_fields_present (defaultAgent env).
Proof. repeat split; simpl; eexists; reflexivity. Qed.

Lemma candidates_withDefaults (direction : string) (r : Response (list Agent)) (b : Agent) :
  In b (candidates direction r) ->
  accepts_direction direction b = true /\ exists a, b = withDefaults a.
Proof.
  unfold candidates. destruct (answer r) as [rows|]; [|intros []].
  rewrite filter_In, in_map_iff. intros [(a & <- & _) Hacc]. eauto.
Qed.

Lemma hd_error_In {A : Type} (l : list A) (a : A) : hd_error l = Some a -> In a l.
Proof. destruct l; simpl; [discriminate|]. intros [= ->]. now left. Qed.

Lemma find_In {A : Type} (q : A -> bool) (l : list A) (a : A) :
  find q l = Some a -> In a l /\ q a = true.
Proof. apply find_some. Qed.

(** * Properties of the service *)

(** ** Inbound routing *)

(** C1, as amended.  [routeIncomingCall] returns an agent, chosen by the
    first step that succeeds, in this order: the agent assigned to the
    called number (by the assignment table, if that agent is active; then,
    unless the table lookup threw, by the agent's own primary number);
    else the newest active inbound-or-both agent
    whose availability window covers the current moment; else an active
    inbound-or-both agent whatever its hours (the after-hours agent of the
    listing of step 2 if it has one, else the newest agent of the listing
    of step 3); else the Default Agent. *)
Theorem C1_inbound_fallback_order (env : ProcessEnv) (w : World) (cd : CallData) :
  exists r,
    routeIncomingCall env w (Val cd) = Ok r
    /\ match assigned_by_table w (To cd), assigned_agent w (To cd) with
       | Some a, _ => r = withDefaults a
       | None, Some a => r = withDefaults a
       | None, None =>
           match open_agent w with
           | Some a =>
               r = a
               /\ accepts_direction "inbound" a = true
               /\ covers (getDay (now w)) (toTimeString_slice_0_5 (now w)) a = true
           | None =>
               match after_hours_agent w,
                     hd_error (candidates "inbound" (ai_agents_for_inbound w)) with
               | Some a, _ =>
                   r = a
                   /\ In a (candidates "inbound" (ai_agents_for_business_hours w))
               | None, Some b =>
                   r = b
                   /\ In b (candidates "inbound" (ai_agents_for_inbound w))
               | None, None => r = defaultAgent env
               end
           end
       end.
Proof.
  eexists. split; [apply routeIncomingCall_eq|].
  unfold assigned_agent.
  destruct (assigned_by_table w (To cd)) as [a|]; [reflexivity|].
  destruct (match phone_numbers_single w (To cd) with
            | Rejected => None
            | Resolved _ _ => assigned_by_primary_number w (To cd)
            end) as [a|]; [reflexivity|].
  simpl. unfold step2, step3.
  destruct (open_agent w) as [a|] eqn:Hopen; simpl.
  - split; [reflexivity|].
    apply find_In in Hopen. destruct Hopen as [Hin Hcov].
    apply candidates_withDefaults in Hin. now destruct Hin.
  - destruct (after_hours_agent w) as [a|] eqn:Hah; simpl.
    + apply find_In in Hah. now destruct Hah.
    + destruct (hd_error _) as [b|] eqn:Hb; simpl; [|reflexivity].
      split; [reflexivity | now apply hd_error_In].
Qed.

(** C1, as stated, fails.  The assignment table gives the called number
    to an agent that is not active, and the call goes to the agent that
    has the number as its primary number; and when the table lookup
    throws, the agent that has the number as its primary number is not
    used. *)
Lemma C1_counterexample :
  phone_numbers_single world_retired_with_primary (To sample_call)
  = Resolved (Val retired_assignment) Null
  /\ ai_agents retired_assignment = Val retired_agent
  /\ routeIncomingCall no_env world_retired_with_primary (Val sample_call)
     = Ok (withDefaults sales_agent)
  /\ routeIncomingCall no_env world_retired_with_primary (Val sample_call)
     <> Ok (withDefaults retired_agent)
  /\ answer (ai_agents_by_primary_number world_table_rejects (To sample_call))
     = Some sales_agent
  /\ routeIncomingCall no_env world_table_rejects (Val sample_call)
     = Ok (defaultAgent no_env).
Proof.
  repeat split; try reflexivity.
  vm_compute. discriminate.
Qed.

Lemma failed_assigned_agent (w : World) (number : js string) :
  failed (phone_numbers_single w number) ->
  failed (ai_agents_by_primary_number w number) ->
  assigned_agent w number = None.
Proof.
  intros H1 H2. unfold assigned_agent, assigned_by_table, assigned_by_primary_number.
  rewrite (failed_answer _ H1), (failed_answer _ H2).
  now destruct (phone_numbers_single w number).
Qed.

Lemma step2_failed (w : World) :
  failed (ai_agents_for_business_hours w) -> step2 w = Null.
Proof.
  intros H. unfold step2, open_agent, after_hours_agent.
  now rewrite (failed_candidates "inbound" _ H).
Qed.

Lemma step3_failed (w : World) :
  failed (ai_agents_for_inbound w) -> step3 w = Null.
Proof.
  intros H. unfold step3. now rewrite (failed_candidates "inbound" _ H).
Qed.

(** C5.  [routeIncomingCall] never throws: it returns an agent for every
    argument.  When every lookup fails it returns the Default Agent; when
    the argument cannot be read it returns the Default Agent; and each
    lookup helper returns [null] instead of throwing when its lookups
    fail, so that the chain moves on to the next step. *)
Theorem C5_incoming_never_throws (env : ProcessEnv) (w : World) :
  (forall callData, exists r, routeIncomingCall env w callData = Ok r)
  /\ (forall cd,
        failed (phone_numbers_single w (To cd)) ->
        failed (ai_agents_by_primary_number w (To cd)) ->
        failed (ai_agents_for_business_hours w) ->
        failed (ai_agents_for_inbound w) ->
        routeIncomingCall env w (Val cd) = Ok (defaultAgent env))
  /\ (forall callData,
        callData = Undefined \/ callData = Null ->
        routeIncomingCall env w callData = Ok (defaultAgent env))
  /\ (forall cd, exists s1 s2 s3,
        getAgentByPhoneNumber w (To cd) = Ok s1
        /\ getAgentByBusinessHours w "inbound" = Ok s2
        /\ getActiveInboundAgent w = Ok s3
        /\ routeIncomingCall env w (Val cd)
           = Ok (first_success [s1; s2; s3] (defaultAgent env))
        /\ (failed (phone_numbers_single w (To cd)) ->
            failed (ai_agents_by_primary_number w (To cd)) -> s1 = Null)
        /\ (failed (ai_agents_for_business_hours w) -> s2 = Null)
        /\ (failed (ai_agents_for_inbound w) -> s3 = Null)).
Proof.
  repeat split.
  - intros [| |cd]; eexists;
      [apply routeIncomingCall_nullish; now left
      |apply routeIncomingCall_nullish; now right
      |apply routeIncomingCall_eq].
  - intros cd H1 H2 H3 H4. rewrite routeIncomingCall_eq.
    rewrite (failed_assigned_agent _ _ H1 H2), (step2_failed _ H3), (step3_failed _ H4).
    reflexivity.
  - apply routeIncomingCall_nullish.
  - intros cd. do 3 eexists.
    split; [apply getAgentByPhoneNumber_eq|].
    split; [apply getAgentByBusinessHours_eq|].
    split; [apply getActiveInboundAgent_eq|].
    split; [|split; [|split]].
    + rewrite routeIncomingCall_eq. fold (step2 w). fold (step3 w).
      now destruct (assigned_agent w (To cd)).
    + intros H1 H2. now rewrite (failed_assigned_agent _ _ H1 H2).
    + apply step2_failed.
    + apply step3_failed.
Qed.

Lemma C5_incoming_never_throws_witness :
  routeIncomingCall no_env failing_world (Val sample_call) = Ok (defaultAgent no_env).
Proof.
  apply (proj1 (proj2 (C5_incoming_never_throws no_env failing_world)));
    right; do 2 eexists; reflexivity.
Defined.

(** C6, as amended.  When the assignment table has a row for the called
    number, the lookup reports no error and the agent of the row is
    active, [routeIncomingCall] returns that agent with its defaults,
    whatever its business hours and call direction. *)
Theorem C6_active_assignment_wins (env : ProcessEnv) (w : World) (cd : CallData)
    (row : PhoneNumber) (e : js StoreError) (a : Agent) :
  phone_numbers_single w (To cd) = Resolved (Val row) e ->
  truthy e = false ->
  ai_agents row = Val a ->
  truthy (is_active a) = true ->
  routeIncomingCall env w (Val cd) = Ok (withDefaults a).
Proof.
  intros Hrow He Ha Hactive.
  rewrite routeIncomingCall_eq.
  unfold assigned_agent, assigned_by_table, answer.
  now rewrite Hrow, He, Ha, Hactive.
Qed.

Lemma C6_active_assignment_wins_witness :
  accepts_direction "inbound" (withDefaults campaign_agent) = false
  /\ routeIncomingCall no_env world_campaign_assignment (Val sample_call)
     = Ok (withDefaults campaign_agent).
Proof.
  split; [reflexivity|].
  apply (C6_active_assignment_wins no_env world_campaign_assignment sample_call
           campaign_assignment Null campaign_agent); reflexivity.
Defined.

(** C6, as stated, fails: the called number is assigned to an agent that
    is not active, and the call goes to the Default Agent. *)
Lemma C6_counterexample :
  phone_numbers_single world_retired_assignment (To sample_call)
  = Resolved (Val retired_assignment) Null
  /\ ai_agents retired_assignment = Val retired_agent
  /\ routeIncomingCall no_env world_retired_assignment (Val sample_call)
     = Ok (defaultAgent no_env)
  /\ routeIncomingCall no_env world_retired_assignment (Val sample_call)
     <> Ok (withDefaults retired_agent).
Proof.
  repeat split; try reflexivity.
  vm_compute. discriminate.
Qed.




(** ** Outbound routing *)

Lemma accepts_outbound_not_inbound (a b : Agent) :
  call_direction a = Val "inbound" ->
  accepts_direction "outbound" b = true ->
  b <> withDefaults a.
Proof.
  intros Ha Hb ->. unfold accepts_direction in Hb. simpl in Hb.
  rewrite Ha in Hb. discriminate Hb.
Qed.

(** C8.  When [agentId] names an active agent whose call direction is
    ['inbound'], [routeOutboundCall] does not return it: the result is
    what the general search gives, the newest active agent that accepts
    outbound or both, which is another agent, or else the Default
    Agent. *)
Theorem C8_inbound_agent_not_routed_outbound (env : ProcessEnv) (w : World)
    (agentId : js string) (callData : js CallData) (a : Agent) :
  answer (ai_agents_by_id w agentId) = Some a ->
  truthy (is_active a) = true ->
  call_direction a = Val "inbound" ->
  routeOutboundCall env w agentId callData = Ok (outbound_fallback env w)
  /\ match hd_error (candidates "outbound" (ai_agents_for_outbound w)) with
     | Some b =>
         outbound_fallback env w = b
         /\ accepts_direction "outbound" b = true
         /\ b <> withDefaults a
     | None => outbound_fallback env w = defaultAgent env
     end.
Proof.
  intros Hfound Hactive Hin. split.
  - rewrite routeOutboundCall_eq.
    destruct (truthy agentId); [|reflexivity].
    rewrite Hfound. unfold accepts_direction. simpl. rewrite Hin. simpl.
    now rewrite andb_false_r.
  - unfold outbound_fallback.
    destruct (hd_error _) as [b|] eqn:Hb; [|reflexivity].
    apply hd_error_In, candidates_withDefaults in Hb. destruct Hb as [Hacc _].
    repeat split; [assumption|].
    now apply accepts_outbound_not_inbound.
Qed.

Lemma C8_inbound_agent_not_routed_outbound_witness :
  answer (ai_agents_by_id world_outbound (Val "sales")) = Some sales_agent
  /\ routeOutboundCall no_env world_outbound (Val "sales") (Val sample_call)
     = Ok (withDefaults campaign_agent).
Proof.
  split; [reflexivity|].
  apply (C8_inbound_agent_not_routed_outbound no_env world_outbound (Val "sales")
           (Val sample_call) sales_agent); reflexivity.
Defined.

(** ** The returned agent *)

Lemma first_success_present (tries : list (js Agent)) (d : Agent) :
  Forall (fun t => forall a, t = Val a -> availability_fields_present a) tries ->
  availability_fields_present d ->
  availability_fields_present (first_success tries d).
Proof.
  induction 1 as [|t tries Ht _ IH]; intros Hd; simpl; [assumption|].
  destruct t as [| |a]; auto.
Qed.

Lemma candidates_present (direction : string) (r : Response (list Agent)) (b : Agent) :
  In b (candidates direction r) -> availability_fields_present b.
Proof.
  intros H. apply candidates_withDefaults in H. destruct H as (_ & a & ->).
  apply withDefaults_present.
Qed.

(** C9.  The agent that [routeIncomingCall] or [routeOutboundCall] returns
    holds a value in each of its availability fields: call direction,
    time zone, start and end of business hours, business days.  Both
    functions return an agent for every argument. *)
Theorem C9_returned_agent_has_availability_fields (env : ProcessEnv) (w : World) :
  (forall callData, exists r,
      routeIncomingCall env w callData = Ok r /\ availability_fields_present r)
  /\ (forall agentId callData, exists r,
      routeOutboundCall env w agentId callData = Ok r /\ availability_fields_present r).
Proof.
  split.
  - intros [| |cd].
    1,2: eexists; split; [reflexivity|apply defaultAgent_present].
    eexists. split; [apply routeIncomingCall_eq|].
    apply first_success_present; [|apply defaultAgent_present].
    apply Forall_cons; [|apply Forall_cons; [|apply Forall_cons; [|apply Forall_nil]]].
    + destruct (assigned_agent w (To cd)); simpl; [|discriminate].
      intros ? [= <-]. apply withDefaults_present.
    + unfold step2.
      destruct (open_agent w) as [b|] eqn:Hopen.
      * intros ? [= <-]. apply find_In in Hopen. destruct Hopen as [Hopen _].
        now apply candidates_present in Hopen.
      * destruct (after_hours_agent w) as [b|] eqn:Hah; simpl; [|discriminate].
        intros ? [= <-]. apply find_In in Hah. destruct Hah as [Hah _].
        now apply candidates_present in Hah.
    + unfold step3.
      destruct (hd_error _) as [b|] eqn:Hb; simpl; [|discriminate].
      intros ? [= <-]. apply hd_error_In in Hb.
      now apply candidates_present in Hb.
  - intros agentId callData. eexists. split; [apply routeOutboundCall_eq|].
    assert (Hfallback : availability_fields_present (outbound_fallback env w)).
    { unfold outbound_fallback.
      destruct (hd_error _) as [b|] eqn:Hb; [|apply defaultAgent_present].
      apply hd_error_In in Hb. now apply candidates_present in Hb. }
    destruct (if truthy agentId then _ else _) as [a|]; [|assumption].
    destruct (_ && _); [apply withDefaults_present|assumption].
Qed.

(** ** Capacity *)

Lemma canAgentHandleCall_counted (w : World) (agentId : js string) (row : Agent)
    (e e' : js StoreError) (calls : js (list CallLog)) :
  ai_agents_limit w agentId = Resolved (Val row) e ->
  truthy e = false ->
  call_logs_in_progress w agentId = Resolved calls e' ->
  truthy e' = false ->
  canAgentHandleCall w agentId
  = Ok (in_progress_count calls <? (max_concurrent_calls row ||| 5)).
Proof.
  intros Hrow He Hcalls He'. unfold canAgentHandleCall.
  rewrite Hrow. simpl. rewrite He. simpl.
  rewrite Hcalls. simpl. rewrite He'. simpl.
  destruct calls as [| |l]; simpl; try reflexivity.
  unfold or_else at 1. unfold truthy, truthy_Z.
  destruct (Z.eqb_spec (Z.of_nat (List.length l)) 0) as [->|]; reflexivity.
Qed.

(** What [canAgentHandleCall] does when a lookup fails.  It never throws;
    it returns [true] when the query that counts the calls in progress
    fails and when the fetch of the concurrency limit throws, and [false]
    when the fetch of the limit reports an error or delivers no row. *)
Lemma canAgentHandleCall_on_failure (w : World) (agentId : js string) :
  (exists b, canAgentHandleCall w agentId = Ok b)
  /\ (forall row e,
        ai_agents_limit w agentId = Resolved (Val row) e ->
        truthy e = false ->
        failed (call_logs_in_progress w agentId) ->
        canAgentHandleCall w agentId = Ok true)
  /\ (ai_agents_limit w agentId = Rejected ->
      canAgentHandleCall w agentId = Ok true)
  /\ (forall d e,
        ai_agents_limit w agentId = Resolved d e ->
        truthy e = true \/ truthy d = false ->
        canAgentHandleCall w agentId = Ok false).
Proof.
  unfold canAgentHandleCall. repeat split.
  - destruct (ai_agents_limit w agentId) as [|[| |row] [| |e]]; simpl;
      try (eexists; reflexivity).
    all: destruct (call_logs_in_progress w agentId) as [|calls [| |e']]; simpl;
      eexists; reflexivity.
  - intros row e -> He [-> | (d & e' & ->)]; simpl; rewrite He; reflexivity.
  - intros ->. reflexivity.
  - intros d e -> [He | Hd]; simpl.
    + now rewrite He.
    + destruct (truthy e); [reflexivity|].
      destruct d as [| |row]; [reflexivity|reflexivity|discriminate Hd].
Qed.

(** C2, where the code departs from it.  The fetch of the concurrency
    limit fails with a store error in its response, and
    [canAgentHandleCall] returns [false]: the call is refused.  The same
    function returns [true] when that fetch throws, and when the query
    that counts the calls in progress fails with the same store error. *)
Theorem C2_limit_fetch_error_refuses_call :
  failed (ai_agents_limit world_limit_error (Val "sales"))
  /\ canAgentHandleCall world_limit_error (Val "sales") = Ok false
  /\ failed (ai_agents_limit world_limit_throws (Val "sales"))
  /\ canAgentHandleCall world_limit_throws (Val "sales") = Ok true
  /\ failed (call_logs_in_progress world_count_error (Val "sales"))
  /\ canAgentHandleCall world_count_error (Val "sales") = Ok true.
Proof.
  repeat split; try reflexivity.
  - right. do 2 eexists. reflexivity.
  - now left.
  - right. do 2 eexists. reflexivity.
Qed.

(** C10.  When the row fetched by [canAgentHandleCall] has no
    [max_concurrent_calls], or [null], or [0], and both lookups succeed,
    the result is whether fewer than 5 calls are in progress. *)
Theorem C10_limit_defaults_to_five (w : World) (agentId : js string) (row : Agent)
    (e e' : js StoreError) (calls : js (list CallLog)) :
  ai_agents_limit w agentId = Resolved (Val row) e ->
  truthy e = false ->
  call_logs_in_progress w agentId = Resolved calls e' ->
  truthy e' = false ->
  max_concurrent_calls row = Undefined
  \/ max_concurrent_calls row = Null
  \/ max_concurrent_calls row = Val 0 ->
  canAgentHandleCall w agentId = Ok (in_progress_count calls <? 5).
Proof.
  intros Hrow He Hcalls He' Hlimit.
  rewrite (canAgentHandleCall_counted w agentId row e e' calls Hrow He Hcalls He').
  now destruct Hlimit as [-> | [-> | ->]].
Qed.

Lemma C10_limit_defaults_to_five_witness :
  max_concurrent_calls (limit_row Null) = Null
  /\ canAgentHandleCall world_null_limit (Val "sales") = Ok true.
Proof.
  split; [reflexivity|].
  apply (C10_limit_defaults_to_five world_null_limit (Val "sales") (limit_row Null)
           Null Null (Val four_calls));
    try reflexivity. right. left. reflexivity.
Defined.

(** ** Availability *)

Lemma array_includes_In (xs : list Z) (v : Z) :
  array_includes xs v = true <-> In v xs.
Proof.
  unfold array_includes. rewrite existsb_exists. split.
  - intros (x & Hx & Heq). apply Z.eqb_eq in Heq. now subst.
  - intros H. exists v. split; [assumption | apply Z.eqb_refl].
Qed.

(** C3.  For an agent with its defaults applied, a weekday and a time,
    [isAgentAvailable] returns a boolean, and it returns [true] exactly
    when the weekday is one of the agent's business days and the time lies
    between the start and the end of its business hours in the
    lexicographic order of strings, both ends included.  With days 1 to 5
    and hours 09:00 to 17:00, Monday 08:59 gives false, 09:00 true, 17:00
    true and 17:01 false. *)
Theorem C3_isAgentAvailable_iff (a : Agent) (day : Z) (time : string) :
  (exists days start finish,
      business_days (withDefaults a) = Val days
      /\ business_hours_start (withDefaults a) = Val start
      /\ business_hours_end (withDefaults a) = Val finish
      /\ (exists b, isAgentAvailable (Val (withDefaults a)) day time = Ok b)
      /\ (isAgentAvailable (Val (withDefaults a)) day time = Ok true
          <-> In day days /\ lex_le start time /\ lex_le time finish))
  /\ isAgentAvailable (Val (withDefaults sales_agent)) 1 "08:59" = Ok false
  /\ isAgentAvailable (Val (withDefaults sales_agent)) 1 "09:00" = Ok true
  /\ isAgentAvailable (Val (withDefaults sales_agent)) 1 "17:00" = Ok true
  /\ isAgentAvailable (Val (withDefaults sales_agent)) 1 "17:01" = Ok false.
Proof.
  split; [|repeat split].
  do 3 eexists. repeat (split; [reflexivity|]).
  rewrite isAgentAvailable_Val. split; [eexists; reflexivity|].
  unfold covers. simpl.
  rewrite !or_else_truthy by reflexivity.
  split.
  - intros [= H]. apply andb_true_iff in H. destruct H as [Hday H].
    apply andb_true_iff in H. destruct H as [Hstart Hend].
    now rewrite <- array_includes_In, <- str_ge_lex, <- str_le_lex.
  - rewrite <- array_includes_In, <- str_ge_lex, <- str_le_lex.
    now intros (-> & -> & ->).
Qed.

(** ** Defaults of an agent *)

Lemma defaulted_or_else {A : Type} `{Truthy A} (x : js A) (d : A) :
  defaulted x (Val (x ||| d)) d.
Proof.
  split; intros Hx.
  - now apply or_else_keeps.
  - now rewrite or_else_fills.
Qed.

(** C4, as amended.  [enhanceAgentWithDefaults] gives [null] for [null].
    For an agent object it gives a copy in which, of call direction, time
    zone, start and end of business hours and business days, every field
    that is falsy (missing, null or the empty string) holds its default
    (inbound, America/New_York, 09:00, 17:00, [1,2,3,4,5]) and every field
    that is truthy is kept; all other fields are those of the argument.
    On a store of objects the copy is a new object and every object of
    the store, the argument among them, is left as it was. *)
Theorem C4_enhance_fills_falsy_fields :
  enhanceAgentWithDefaults Null = Null
  /\ (forall a, exists e,
        enhanceAgentWithDefaults (Val a) = Val e
        /\ defaulted (call_direction a) (call_direction e) "inbound"
        /\ defaulted (timezone a) (timezone e) "America/New_York"
        /\ defaulted (business_hours_start a) (business_hours_start e) "09:00"
        /\ defaulted (business_hours_end a) (business_hours_end e) "17:00"
        /\ defaulted (business_days a) (business_days e) [1; 2; 3; 4; 5]
        /\ same_other_fields a e)
  /\ (forall store ref object,
        nth_error store ref = Some object ->
        exists store' new,
          enhanceAgentWithDefaults_ref store (Val ref) = (store', Val new)
          /\ new <> ref
          /\ option_map Val (nth_error store' new)
             = Some (enhanceAgentWithDefaults (Val object))
          /\ forall k o, nth_error store k = Some o -> nth_error store' k = Some o).
Proof.
  split; [reflexivity|]. split.
  - intros a. eexists. split; [reflexivity|].
    repeat (split; [apply defaulted_or_else|]).
    repeat split.
  - intros store ref object Href. do 2 eexists.
    unfold enhanceAgentWithDefaults_ref. rewrite Href.
    split; [reflexivity|].
    assert (Hlt : (ref < List.length store)%nat)
      by (apply nth_error_Some; congruence).
    split; [lia|]. split.
    + rewrite nth_error_app2, Nat.sub_diag by lia. reflexivity.
    + intros k o Hk. rewrite nth_error_app1; [assumption|].
      apply nth_error_Some. congruence.
Qed.

Lemma C4_enhance_fills_falsy_fields_witness :
  nth_error [sales_agent; unzoned_agent] 1%nat = Some unzoned_agent
  /\ exists store' new,
       enhanceAgentWithDefaults_ref [sales_agent; unzoned_agent] (Val 1%nat)
       = (store', Val new)
       /\ new <> 1%nat
       /\ option_map Val (nth_error store' new)
          = Some (enhanceAgentWithDefaults (Val unzoned_agent))
       /\ forall k o, nth_error [sales_agent; unzoned_agent] k = Some o ->
                      nth_error store' k = Some o.
Proof.
  split; [reflexivity|].
  apply (proj2 (proj2 C4_enhance_fills_falsy_fields)
           [sales_agent; unzoned_agent] 1%nat unzoned_agent).
  reflexivity.
Defined.

(** C4, as stated, fails: the time zone of the agent is present, it holds
    the empty string, and the copy holds another time zone. *)
Lemma C4_counterexample :
  timezone unzoned_agent = Val ""
  /\ opt_chain (enhanceAgentWithDefaults (Val unzoned_agent)) timezone
     = Val "America/New_York"
  /\ opt_chain (enhanceAgentWithDefaults (Val unzoned_agent)) timezone
     <> timezone unzoned_agent.
Proof.
  repeat split. discriminate.
Qed.

(** * Further properties *)

(** ** Defaults and availability *)

Lemma withDefaults_idem (a : Agent) : withDefaults (withDefaults a) = withDefaults a.
Proof.
  unfold withDefaults. cbn [call_direction timezone business_hours_start
    business_hours_end business_days id name agent_type voice_name language_code
    system_instruction greeting is_active max_concurrent_calls twilio_phone_number
    created_at other_columns].
  f_equal; f_equal; cbn [or_else]; now rewrite or_else_truthy.
Qed.

Lemma covers_withDefaults (day : Z) (time : string) (a : Agent) :
  covers day time (withDefaults a) = covers day time a.
Proof.
  unfold covers, withDefaults.
  cbn [business_days business_hours_start business_hours_end or_else].
  now rewrite !or_else_truthy.
Qed.

(** X1.  Applying the defaults twice is applying them once. *)
Theorem X1_enhance_idempotent (agent : js Agent) :
  enhanceAgentWithDefaults (enhanceAgentWithDefaults agent)
  = enhanceAgentWithDefaults agent.
Proof.
  destruct agent as [| |a]; simpl; try reflexivity.
  now rewrite withDefaults_idem.
Qed.

(** X2.  The agent a routing function returns needs no more defaults:
    applying [enhanceAgentWithDefaults] to it gives it back.  This holds
    for the Default Agent too, which is returned as the constructor built
    it. *)
Theorem X2_routed_agent_is_enhanced (env : ProcessEnv) (w : World) :
  (forall callData, exists r,
      routeIncomingCall env w callData = Ok r
      /\ enhanceAgentWithDefaults (Val r) = Val r)
  /\ (forall agentId callData, exists r,
      routeOutboundCall env w agentId callData = Ok r
      /\ enhanceAgentWithDefaults (Val r) = Val r).
Proof.
  assert (Hcand : forall d r b, In b (candidates d r) -> withDefaults b = b).
  { intros d r b Hb. apply candidates_withDefaults in Hb.
    destruct Hb as (_ & a & ->). apply withDefaults_idem. }
  split.
  - intros [| |cd]; try (eexists; split; reflexivity).
    eexists. split; [apply routeIncomingCall_eq|]. simpl. f_equal.
    destruct (assigned_agent w (To cd)) as [a|]; simpl; [apply withDefaults_idem|].
    unfold step2, step3.
    destruct (open_agent w) as [a|] eqn:Hopen; simpl.
    { apply find_In in Hopen. destruct Hopen as [Hin _]. apply (Hcand _ _ _ Hin). }
    destruct (after_hours_agent w) as [a|] eqn:Hah; simpl.
    { apply find_In in Hah. destruct Hah as [Hin _]. apply (Hcand _ _ _ Hin). }
    destruct (hd_error _) as [b|] eqn:Hb; simpl; [|reflexivity].
    apply hd_error_In in Hb. apply (Hcand _ _ _ Hb).
  - intros agentId callData. eexists. split; [apply routeOutboundCall_eq|].
    simpl. f_equal.
    assert (Hfb : withDefaults (outbound_fallback env w) = outbound_fallback env w).
    { unfold outbound_fallback. destruct (hd_error _) as [b|] eqn:Hb; [|reflexivity].
      apply hd_error_In in Hb. apply (Hcand _ _ _ Hb). }
    destruct (if truthy agentId then _ else _) as [a|]; [|assumption].
    destruct (_ && _); [apply withDefaults_idem | assumption].
Qed.

(** X3.  Whether an agent is available does not change when its defaults
    are applied first: [isAgentAvailable] fills in the same defaults
    itself. *)
Theorem X3_availability_of_enhanced_agent (a : Agent) (day : Z) (time : string) :
  isAgentAvailable (enhanceAgentWithDefaults (Val a)) day time
  = isAgentAvailable (Val a) day time.
Proof.
  simpl enhanceAgentWithDefaults.
  now rewrite !isAgentAvailable_Val, covers_withDefaults.
Qed.

Lemma lex_lt_trans (a b c : string) : lex_lt a b -> lex_lt b c -> lex_lt a c.
Proof.
  intros Hab. revert c. induction Hab; intros c' Hbc; inversion Hbc; subst.
  - constructor.
  - constructor.
  - apply lex_lt_head. lia.
  - now apply lex_lt_head.
  - now apply lex_lt_head.
  - apply lex_lt_tail. auto.
Qed.

Lemma lex_le_trans (a b c : string) : lex_le a b -> lex_le b c -> lex_le a c.
Proof.
  intros [->|Hab] [->|Hbc]; try (now left); try (now right).
  right. eapply lex_lt_trans; eassumption.
Qed.

(** X4.  A window whose end comes before its start in the order of strings
    is empty: the agent is available at no time on any day.  A night shift
    from 22:00 to 06:00 is such a window. *)
Theorem X4_window_that_ends_before_it_starts (a : Agent) (day : Z) (time : string) :
  str_lt (effective_end a) (effective_start a) = true ->
  isAgentAvailable (Val a) day time = Ok false.
Proof.
  intros Hlt. rewrite isAgentAvailable_Val. f_equal.
  unfold covers. fold (effective_start a). fold (effective_end a).
  destruct (array_includes _ day); [simpl|reflexivity].
  destruct (str_ge time (effective_start a)) eqn:Hs; [simpl|reflexivity].
  destruct (str_le time (effective_end a)) eqn:He; [exfalso|reflexivity].
  apply str_ge_lex in Hs. apply str_le_lex in He. apply str_lt_lex in Hlt.
  destruct (lex_le_trans _ _ _ Hs He) as [Heq|Hse].
  - rewrite Heq in Hlt. exact (lex_lt_irrefl _ Hlt).
  - exact (lex_lt_asym _ _ Hlt Hse).
Qed.

Lemma X4_window_that_ends_before_it_starts_witness :
  str_lt (effective_end night_shift) (effective_start night_shift) = true
  /\ isAgentAvailable (Val night_shift) 2 "23:30" = Ok false.
Proof.
  split; [reflexivity|].
  apply (X4_window_that_ends_before_it_starts night_shift 2 "23:30"). reflexivity.
Defined.

(** X5.  An agent whose business days are the empty array keeps them when
    its defaults are applied, and is available at no time on any day; only
    a missing or null array stands for Monday to Friday. *)
Theorem X5_no_business_days (a : Agent) (day : Z) (time : string) :
  business_days a = Val [] ->
  opt_chain (enhanceAgentWithDefaults (Val a)) business_days = Val []
  /\ isAgentAvailable (enhanceAgentWithDefaults (Val a)) day time = Ok false.
Proof.
  intros Hdays. split.
  - simpl. now rewrite Hdays.
  - simpl enhanceAgentWithDefaults.
    rewrite isAgentAvailable_Val, covers_withDefaults.
    unfold covers. now rewrite Hdays.
Qed.

Lemma X5_no_business_days_witness :
  business_days dayless_agent = Val []
  /\ isAgentAvailable (enhanceAgentWithDefaults (Val dayless_agent)) 1 "10:30"
     = Ok false.
Proof.
  split; [reflexivity|].
  apply (proj2 (X5_no_business_days dayless_agent 1 "10:30" eq_refl)).
Defined.

Lemma truthy_clock (h m : nat) : truthy (clock h m) = true.
Proof. reflexivity. Qed.

(** X6.  For an agent whose business hours are written [HH:MM], the
    comparison of strings decides as the clock does: at the moment [now]
    the agent is available exactly when today is one of its business days
    and the minute of the day lies between the first and the last minute
    of its window, both included. *)
Theorem X6_availability_by_the_clock (a : Agent) (sh sm eh em : nat) (today : Date) :
  (sh < 24)%nat -> (sm < 60)%nat -> (eh < 24)%nat -> (em < 60)%nat ->
  business_hours_start a = Val (clock sh sm) ->
  business_hours_end a = Val (clock eh em) ->
  isAgentAvailable (Val a) (getDay today) (toTimeString_slice_0_5 today)
  = Ok (array_includes (effective_days a) (getDay today)
        && ((60 * sh + sm <=? minute_of_day today)%nat
            && (minute_of_day today <=? 60 * eh + em)%nat)).
Proof.
  intros Hsh Hsm Heh Hem Hstart Hend.
  rewrite isAgentAvailable_Val. unfold covers, effective_days.
  rewrite Hstart, Hend. cbn [or_else]. rewrite !truthy_clock.
  unfold str_ge, str_le, minute_of_day.
  change (toTimeString_slice_0_5 today)
    with (pad2 (getHours today) ++ ":" ++ pad2 (getMinutes today))%string.
  unfold clock.
  assert (Hh : (getHours today < 24)%nat)
    by (apply Nat.mod_upper_bound; discriminate).
  assert (Hm : (getMinutes today < 60)%nat)
    by (apply Nat.mod_upper_bound; discriminate).
  rewrite !str_lt_clock by assumption.
  rewrite clock_minutes.
  now rewrite <- !Nat.leb_antisym.
Qed.

Lemma X6_availability_by_the_clock_witness :
  business_hours_start sales_agent = Val (clock 9 0)
  /\ isAgentAvailable (Val sales_agent) (getDay {| minute_of_week := monday_10_30 |})
       (toTimeString_slice_0_5 {| minute_of_week := monday_10_30 |})
     = Ok true.
Proof.
  split; [reflexivity|].
  apply (X6_availability_by_the_clock sales_agent 9 0 17 0
           {| minute_of_week := monday_10_30 |});
    try reflexivity; lia.
Defined.

(** ** The lookup helpers *)

Lemma getAgentByBusinessHours_any (w : World) (direction : string) :
  getAgentByBusinessHours w direction
  = Ok (match find (covers (getDay (now w)) (toTimeString_slice_0_5 (now w)))
                   (candidates direction (ai_agents_for_business_hours w)) with
        | Some a => Val a
        | None =>
            js_of_option
              (find is_after_hours
                    (candidates direction (ai_agents_for_business_hours w)))
        end).
Proof.
  unfold getAgentByBusinessHours, candidates, answer.
  destruct (ai_agents_for_business_hours w) as [|[| |rows] [| |e]];
    simpl; try reflexivity.
  all: rewrite map_enhance;
    rewrite (array_filter_Val _ (accepts_direction direction)) by reflexivity;
    simpl; rewrite for_of_available_Val; simpl;
    match goal with
    | |- context [find (covers ?d ?t) ?l] => destruct (find (covers d t) l)
    end; simpl; try reflexivity;
    rewrite (array_find_Val _ is_after_hours) by reflexivity;
    simpl;
    match goal with
    | |- context [find is_after_hours ?l] => destruct (find is_after_hours l)
    end; reflexivity.
Qed.

Lemma getAgentByType_eq (q : Reporting) (agentType : js string) (direction : string) :
  getAgentByType q agentType direction
  = Ok (js_of_option (hd_error (candidates direction (ai_agents_by_type q agentType)))).
Proof.
  unfold getAgentByType, candidates, answer.
  destruct (ai_agents_by_type q agentType) as [|[| |rows] [| |e]];
    simpl; try reflexivity.
  all: rewrite map_enhance;
    rewrite (array_find_Val _ (accepts_direction direction)) by reflexivity;
    rewrite find_filter_head;
    simpl; now destruct (hd_error _).
Qed.

Lemma no_answer_no_candidates (direction : string) (r : Response (list Agent)) :
  answer r = None -> candidates direction r = [].
Proof. intros H. unfold candidates. now rewrite H. Qed.

(** X7.  No lookup helper throws, whatever the registry does, and each
    returns [null] when its lookup delivers nothing: because it rejected,
    because it reported an error, or because it carried no data. *)
Theorem X7_helpers_return_null_on_failure (w : World) (q : Reporting) :
  (forall number, exists v, getAgentByPhoneNumber w number = Ok v)
  /\ (forall direction, exists v, getAgentByBusinessHours w direction = Ok v)
  /\ (exists v, getActiveInboundAgent w = Ok v)
  /\ (exists v, getActiveOutboundAgent w = Ok v)
  /\ (forall agentId, exists v, getAgentById w agentId = Ok v)
  /\ (forall agentType direction, exists v, getAgentByType q agentType direction = Ok v)
  /\ (forall number,
        answer (phone_numbers_single w number) = None ->
        answer (ai_agents_by_primary_number w number) = None ->
        getAgentByPhoneNumber w number = Ok Null)
  /\ (forall direction,
        answer (ai_agents_for_business_hours w) = None ->
        getAgentByBusinessHours w direction = Ok Null)
  /\ (answer (ai_agents_for_inbound w) = None -> getActiveInboundAgent w = Ok Null)
  /\ (answer (ai_agents_for_outbound w) = None -> getActiveOutboundAgent w = Ok Null)
  /\ (forall agentId,
        answer (ai_agents_by_id w agentId) = None ->
        getAgentById w agentId = Ok Null)
  /\ (forall agentType direction,
        answer (ai_agents_by_type q agentType) = None ->
        getAgentByType q agentType direction = Ok Null).
Proof.
  repeat split.
  - intros number. eexists. apply getAgentByPhoneNumber_eq.
  - intros direction. eexists. apply getAgentByBusinessHours_any.
  - eexists. apply getActiveInboundAgent_eq.
  - eexists. apply getActiveOutboundAgent_eq.
  - intros agentId. eexists. apply getAgentById_eq.
  - intros agentType direction. eexists. apply getAgentByType_eq.
  - intros number H1 H2. rewrite getAgentByPhoneNumber_eq.
    unfold assigned_agent, assigned_by_table, assigned_by_primary_number.
    rewrite H1, H2. now destruct (phone_numbers_single w number).
  - intros direction H. rewrite getAgentByBusinessHours_any.
    now rewrite (no_answer_no_candidates direction _ H).
  - intros H. rewrite getActiveInboundAgent_eq.
    now rewrite (no_answer_no_candidates "inbound" _ H).
  - intros H. rewrite getActiveOutboundAgent_eq.
    now rewrite (no_answer_no_candidates "outbound" _ H).
  - intros agentId H. rewrite getAgentById_eq. now rewrite H.
  - intros agentType direction H. rewrite getAgentByType_eq.
    now rewrite (no_answer_no_candidates direction _ H).
Qed.

Lemma X7_helpers_return_null_on_failure_witness :
  answer (ai_agents_for_business_hours failing_world) = None
  /\ getAgentByBusinessHours failing_world "outbound" = Ok Null.
Proof.
  split; [reflexivity|].
  apply (proj1 (proj2 (proj2 (proj2 (proj2 (proj2 (proj2 (proj2
           (X7_helpers_return_null_on_failure failing_world reporting_night))))))))
         "outbound").
  reflexivity.
Defined.

(** X8.  What [getAgentByBusinessHours] returns for a call direction: an
    agent only if it is an active agent of the listing that accepts the
    direction; an agent whose window does not cover now only if it is of
    type [after_hours] and no accepting agent is in hours; [null] only if
    no accepting agent is in hours or of type [after_hours]. *)
Theorem X8_business_hours_choice (w : World) (direction : string) :
  let day := getDay (now w) in
  let time := toTimeString_slice_0_5 (now w) in
  let listed := candidates direction (ai_agents_for_business_hours w) in
  exists v,
    getAgentByBusinessHours w direction = Ok v
    /\ match v with
       | Val a =>
           In a listed
           /\ accepts_direction direction a = true
           /\ (covers day time a = true
               \/ (is_after_hours a = true
                   /\ forall b, In b listed -> covers day time b = false))
       | _ =>
           v = Null
           /\ forall b, In b listed ->
                covers day time b = false /\ is_after_hours b = false
       end.
Proof.
  intros day time listed. eexists. split; [apply getAgentByBusinessHours_any|].
  fold day time listed.
  destruct (find (covers day time) listed) as [a|] eqn:Hopen.
  - apply find_In in Hopen. destruct Hopen as [Hin Hcov].
    repeat split; [assumption | | now left].
    now apply candidates_withDefaults in Hin.
  - pose proof (find_none _ _ Hopen) as Hclosed.
    destruct (find is_after_hours listed) as [a|] eqn:Hah; simpl.
    + apply find_In in Hah. destruct Hah as [Hin Hkind].
      repeat split; [assumption | | right; now split].
      now apply candidates_withDefaults in Hin.
    + pose proof (find_none _ _ Hah) as Hnone.
      split; [reflexivity|]. intros b Hb. split; auto.
Qed.

Lemma hd_candidates (direction : string) (r : Response (list Agent))
    (older newer : list Agent) (x : Agent) :
  answer r = Some (newer ++ x :: older) ->
  (forall y, In y newer -> accepts_direction direction (withDefaults y) = false) ->
  accepts_direction direction (withDefaults x) = true ->
  hd_error (candidates direction r) = Some (withDefaults x).
Proof.
  intros Hr Hnewer Hx. unfold candidates. rewrite Hr. clear Hr.
  induction newer as [|y newer IH]; simpl.
  - now rewrite Hx.
  - rewrite (Hnewer y) by now left.
    apply IH. intros z Hz. apply Hnewer. now right.
Qed.

(** X9.  Among several active agents the newest that accepts the direction
    wins: [getActiveInboundAgent], [getActiveOutboundAgent] and
    [getAgentByType] return, with its defaults, the first row of their
    listing that accepts the direction, the listing being ordered newest
    first. *)
Theorem X9_newest_accepting_agent_wins (w : World) (q : Reporting)
    (older newer : list Agent) (x : Agent) :
  (answer (ai_agents_for_inbound w) = Some (newer ++ x :: older) ->
   (forall y, In y newer -> accepts_direction "inbound" (withDefaults y) = false) ->
   accepts_direction "inbound" (withDefaults x) = true ->
   getActiveInboundAgent w = Ok (Val (withDefaults x)))
  /\ (answer (ai_agents_for_outbound w) = Some (newer ++ x :: older) ->
      (forall y, In y newer -> accepts_direction "outbound" (withDefaults y) = false) ->
      accepts_direction "outbound" (withDefaults x) = true ->
      getActiveOutboundAgent w = Ok (Val (withDefaults x)))
  /\ (forall agentType direction,
        answer (ai_agents_by_type q agentType) = Some (newer ++ x :: older) ->
        (forall y, In y newer -> accepts_direction direction (withDefaults y) = false) ->
        accepts_direction direction (withDefaults x) = true ->
        getAgentByType q agentType direction = Ok (Val (withDefaults x))).
Proof.
  repeat split.
  - intros Hr Hn Hx. rewrite getActiveInboundAgent_eq.
    now rewrite (hd_candidates _ _ _ _ _ Hr Hn Hx).
  - intros Hr Hn Hx. rewrite getActiveOutboundAgent_eq.
    now rewrite (hd_candidates _ _ _ _ _ Hr Hn Hx).
  - intros agentType direction Hr Hn Hx. rewrite getAgentByType_eq.
    now rewrite (hd_candidates _ _ _ _ _ Hr Hn Hx).
Qed.

Lemma X9_newest_accepting_agent_wins_witness :
  getActiveOutboundAgent world_outbound = Ok (Val (withDefaults campaign_agent))
  /\ getAgentByType reporting_night (Val "after_hours") "inbound"
     = Ok (Val (withDefaults night_desk)).
Proof.
  split.
  - apply (proj1 (proj2 (X9_newest_accepting_agent_wins world_outbound reporting_night
                           [] [sales_agent] campaign_agent)));
      [reflexivity | | reflexivity].
    intros y [<-|[]]. reflexivity.
  - apply (proj2 (proj2 (X9_newest_accepting_agent_wins world_outbound reporting_night
                           [] [night_dialer] night_desk)));
      [reflexivity | | reflexivity].
    intros y [<-|[]]. reflexivity.
Defined.

(** X10.  An agent row without a call direction (missing, null or empty)
    takes inbound calls only: [getActiveInboundAgent] returns the newest
    such row, and [getActiveOutboundAgent] returns [null] when every
    listed row is such a row. *)
Theorem X10_agent_without_direction_is_inbound (w : World) (x : Agent)
    (rows : list Agent) :
  (answer (ai_agents_for_inbound w) = Some (x :: rows) ->
   truthy (call_direction x) = false ->
   getActiveInboundAgent w = Ok (Val (withDefaults x)))
  /\ (answer (ai_agents_for_outbound w) = Some rows ->
      (forall y, In y rows -> truthy (call_direction y) = false) ->
      getActiveOutboundAgent w = Ok Null).
Proof.
  split.
  - intros Hr Hx. rewrite getActiveInboundAgent_eq.
    unfold candidates. rewrite Hr. simpl.
    unfold accepts_direction. simpl. now rewrite (or_else_fills _ _ Hx).
  - intros Hr Hrows. rewrite getActiveOutboundAgent_eq.
    unfold candidates. rewrite Hr. clear Hr.
    induction rows as [|y rows IH]; simpl; [reflexivity|].
    unfold accepts_direction at 1. simpl.
    rewrite (or_else_fills _ _ (Hrows y (or_introl eq_refl))). simpl.
    apply IH. intros z Hz. apply Hrows. now right.
Qed.

Lemma X10_agent_without_direction_is_inbound_witness :
  getActiveInboundAgent world_plain = Ok (Val (withDefaults plain_agent))
  /\ getActiveOutboundAgent world_plain = Ok Null.
Proof.
  split.
  - apply (proj1 (X10_agent_without_direction_is_inbound world_plain plain_agent []));
      reflexivity.
  - apply (proj2 (X10_agent_without_direction_is_inbound world_plain plain_agent
                    [plain_agent]));
      [reflexivity|].
    intros y [<-|[]]. reflexivity.
Defined.

(** ** More on routing *)

Lemma accepts_outbound_withDefaults (a : Agent) :
  call_direction a = Val "outbound" \/ call_direction a = Val "both" ->
  accepts_direction "outbound" (withDefaults a) = true.
Proof.
  unfold accepts_direction. simpl. now intros [-> | ->].
Qed.

(** X11.  [routeOutboundCall] returns the agent named by [agentId], with
    its defaults, when the lookup finds it, it is active and its call
    direction is outbound or both, whatever the general search would give.
    With an empty or missing [agentId] the lookup is not used, and with an
    agent that is not active the general search decides. *)
Theorem X11_outbound_agent_by_id (env : ProcessEnv) (w : World)
    (agentId : js string) (callData : js CallData) (a : Agent) :
  answer (ai_agents_by_id w agentId) = Some a ->
  (truthy agentId = true ->
   truthy (is_active a) = true ->
   call_direction a = Val "outbound" \/ call_direction a = Val "both" ->
   routeOutboundCall env w agentId callData = Ok (withDefaults a))
  /\ (truthy agentId = false ->
      routeOutboundCall env w agentId callData = Ok (outbound_fallback env w))
  /\ (truthy (is_active a) = false ->
      routeOutboundCall env w agentId callData = Ok (outbound_fallback env w)).
Proof.
  intros Hfound. rewrite routeOutboundCall_eq. repeat split.
  - intros Hid Hactive Hdir.
    now rewrite Hid, Hfound, Hactive, (accepts_outbound_withDefaults _ Hdir).
  - now intros ->.
  - intros Hactive. destruct (truthy agentId); [|reflexivity].
    now rewrite Hfound, Hactive.
Qed.

Lemma X11_outbound_agent_by_id_witness :
  answer (ai_agents_by_id world_campaign_by_id (Val "campaign")) = Some campaign_agent
  /\ routeOutboundCall no_env world_campaign_by_id (Val "campaign") Null
     = Ok (withDefaults campaign_agent)
  /\ routeOutboundCall no_env world_campaign_by_id (Val "") Null
     = Ok (outbound_fallback no_env world_campaign_by_id).
Proof.
  split; [reflexivity|]. split.
  - apply (proj1 (X11_outbound_agent_by_id no_env world_campaign_by_id
                    (Val "campaign") Null campaign_agent eq_refl));
      try reflexivity. now left.
  - apply (proj1 (proj2 (X11_outbound_agent_by_id no_env world_campaign_by_id
                    (Val "") Null campaign_agent eq_refl))).
    reflexivity.
Defined.

(** X12.  The agent [routeOutboundCall] returns accepts outbound calls or
    both, unless it is the Default Agent, which accepts inbound calls
    only: when no agent can place the call, an inbound agent is returned
    for it. *)
Theorem X12_outbound_result_direction (env : ProcessEnv) (w : World)
    (agentId : js string) (callData : js CallData) :
  exists r,
    routeOutboundCall env w agentId callData = Ok r
    /\ (accepts_direction "outbound" r = true \/ r = defaultAgent env)
    /\ accepts_direction "outbound" (defaultAgent env) = false.
Proof.
  eexists. split; [apply routeOutboundCall_eq|]. split; [|reflexivity].
  assert (Hfb : accepts_direction "outbound" (outbound_fallback env w) = true
                \/ outbound_fallback env w = defaultAgent env).
  { unfold outbound_fallback. destruct (hd_error _) as [b|] eqn:Hb; [left|now right].
    apply hd_error_In in Hb. now apply candidates_withDefaults in Hb. }
  destruct (if truthy agentId then _ else _) as [a|]; [|assumption].
  destruct (truthy (is_active a)); simpl; [|assumption].
  destruct (accepts_direction "outbound" (withDefaults a)) eqn:Hacc;
    [now left | assumption].
Qed.

(** X13.  When no agent is assigned to the called number, the agent
    [routeIncomingCall] returns accepts inbound calls or both. *)
Theorem X13_unassigned_call_gets_inbound_agent (env : ProcessEnv) (w : World)
    (cd : CallData) :
  assigned_agent w (To cd) = None ->
  exists r,
    routeIncomingCall env w (Val cd) = Ok r
    /\ accepts_direction "inbound" r = true.
Proof.
  intros Hnone. eexists. split; [apply routeIncomingCall_eq|].
  rewrite Hnone. simpl. unfold step2, step3.
  destruct (open_agent w) as [a|] eqn:Hopen; simpl.
  { apply find_In in Hopen. destruct Hopen as [Hin _].
    now apply candidates_withDefaults in Hin. }
  destruct (after_hours_agent w) as [a|] eqn:Hah; simpl.
  { apply find_In in Hah. destruct Hah as [Hin _].
    now apply candidates_withDefaults in Hin. }
  destruct (hd_error _) as [b|] eqn:Hb; simpl; [|reflexivity].
  apply hd_error_In in Hb. now apply candidates_withDefaults in Hb.
Qed.

Lemma X13_unassigned_call_gets_inbound_agent_witness :
  assigned_agent world_night_dialer (To sample_call) = None
  /\ exists r,
       routeIncomingCall no_env world_night_dialer (Val sample_call) = Ok r
       /\ accepts_direction "inbound" r = true.
Proof.
  split; [reflexivity|].
  apply (X13_unassigned_call_gets_inbound_agent no_env world_night_dialer sample_call).
  reflexivity.
Defined.

(** X14.  A table lookup that throws ends step 1 of the inbound chain:
    [getAgentByPhoneNumber] returns [null] without asking for the primary
    number.  A table lookup that resolves without an active agent lets the
    primary-number lookup decide: the agent it delivers is returned with
    its defaults, whatever its call direction and business hours, and
    [null] is returned when it delivers nothing. *)
Theorem X14_table_lookup_then_primary_number (w : World) (number : js string) :
  (phone_numbers_single w number = Rejected ->
   getAgentByPhoneNumber w number = Ok Null)
  /\ (forall a,
        phone_numbers_single w number <> Rejected ->
        assigned_by_table w number = None ->
        answer (ai_agents_by_primary_number w number) = Some a ->
        getAgentByPhoneNumber w number = Ok (Val (withDefaults a)))
  /\ (phone_numbers_single w number <> Rejected ->
      assigned_by_table w number = None ->
      answer (ai_agents_by_primary_number w number) = None ->
      getAgentByPhoneNumber w number = Ok Null).
Proof.
  split; [|split].
  - intros Hrej. unfold getAgentByPhoneNumber. now rewrite Hrej.
  - intros a Hres Htable Hprimary. rewrite getAgentByPhoneNumber_eq.
    unfold assigned_agent, assigned_by_primary_number.
    rewrite Htable, Hprimary.
    now destruct (phone_numbers_single w number).
  - intros Hres Htable Hprimary. rewrite getAgentByPhoneNumber_eq.
    unfold assigned_agent, assigned_by_primary_number.
    rewrite Htable, Hprimary.
    now destruct (phone_numbers_single w number).
Qed.

Lemma X14_table_lookup_then_primary_number_witness :
  answer (ai_agents_by_primary_number world_table_rejects (Val "+15550199"))
  = Some sales_agent
  /\ getAgentByPhoneNumber world_table_rejects (Val "+15550199") = Ok Null
  /\ truthy (is_active campaign_agent) = true
  /\ accepts_direction "inbound" (withDefaults campaign_agent) = false
  /\ getAgentByPhoneNumber world_primary_number (Val "+15550199")
     = Ok (Val (withDefaults campaign_agent))
  /\ getAgentByPhoneNumber world_plain (Val "+15550199") = Ok Null.
Proof.
  split; [reflexivity|]. split; [|split; [reflexivity|split; [reflexivity|split]]].
  - apply (proj1 (X14_table_lookup_then_primary_number world_table_rejects
                    (Val "+15550199"))).
    reflexivity.
  - apply (proj1 (proj2 (X14_table_lookup_then_primary_number world_primary_number
                           (Val "+15550199"))) campaign_agent);
      [discriminate | reflexivity | reflexivity].
  - apply (proj2 (proj2 (X14_table_lookup_then_primary_number world_plain
                           (Val "+15550199"))));
      [discriminate | reflexivity | reflexivity].
Defined.

(** ** More on capacity and statistics *)

(** X15.  With both lookups answered and a limit [n] other than 0,
    [canAgentHandleCall] permits the call exactly when fewer than [n]
    calls are in progress, a count query without data counting as no call.
    An agent at its limit is refused, and a negative limit refuses every
    call. *)
Theorem X15_capacity_against_the_limit (w : World) (agentId : js string)
    (row : Agent) (e e' : js StoreError) (calls : js (list CallLog)) (n : Z) :
  ai_agents_limit w agentId = Resolved (Val row) e ->
  truthy e = false ->
  call_logs_in_progress w agentId = Resolved calls e' ->
  truthy e' = false ->
  max_concurrent_calls row = Val n ->
  n <> 0 ->
  canAgentHandleCall w agentId = Ok (in_progress_count calls <? n)
  /\ (in_progress_count calls = n -> canAgentHandleCall w agentId = Ok false)
  /\ (n < 0 -> canAgentHandleCall w agentId = Ok false).
Proof.
  intros Hrow He Hcalls He' Hlimit Hn.
  rewrite (canAgentHandleCall_counted w agentId row e e' calls Hrow He Hcalls He').
  assert (Ht : truthy n = true)
    by (unfold truthy, truthy_Z; now destruct (Z.eqb_spec n 0)).
  rewrite Hlimit. cbn [or_else]. rewrite Ht.
  repeat split.
  - intros ->. now rewrite Z.ltb_irrefl.
  - intros Hneg. f_equal. apply Z.ltb_ge.
    unfold in_progress_count. destruct calls; lia.
Qed.

Lemma X15_capacity_against_the_limit_witness :
  in_progress_count (Val three_calls) = 3
  /\ canAgentHandleCall world_full (Val "sales") = Ok false.
Proof.
  split; [reflexivity|].
  apply (proj1 (proj2 (X15_capacity_against_the_limit world_full (Val "sales")
                         (limit_row (Val 3)) Null Null (Val three_calls) 3
                         eq_refl eq_refl eq_refl eq_refl eq_refl
                         ltac:(discriminate)))).
  reflexivity.
Defined.

(** X16.  [getRoutingStats] never throws.  It returns the empty object
    when the query rejects or reports an error, and otherwise the data of
    the response as it came, also when that data is [null]. *)
Theorem X16_routing_stats (q : Reporting) :
  (exists s, getRoutingStats q = Ok s)
  /\ (failed (call_logs_last_day q) -> getRoutingStats q = Ok EmptyObject)
  /\ (forall d e,
        call_logs_last_day q = Resolved d e ->
        truthy e = false ->
        getRoutingStats q = Ok (StatsData d)).
Proof.
  unfold getRoutingStats. repeat split.
  - destruct (call_logs_last_day q) as [|d [| |e]]; eexists; reflexivity.
  - intros [-> | (d & e & ->)]; reflexivity.
  - intros d e -> He. simpl. now rewrite He.
Qed.

Lemma X16_routing_stats_witness :
  getRoutingStats reporting_night = Ok EmptyObject
  /\ getRoutingStats {| ai_agents_by_type := fun _ => Rejected;
                        call_logs_last_day := Resolved Null Null |}
     = Ok (StatsData Null).
Proof.
  split.
  - apply (proj1 (proj2 (X16_routing_stats reporting_night))).
    right. do 2 eexists. reflexivity.
  - apply (proj2 (proj2 (X16_routing_stats
             {| ai_agents_by_type := fun _ => Rejected;
                call_logs_last_day := Resolved Null Null |})) Null Null);
      reflexivity.
Defined.
